(** * Profile settings page: load and save workflow

    A shallow embedding of [src/app/dashboard/profile/page.tsx]: the
    component state of [ProfileSettings], its two asynchronous handlers
    [fetchProfile] and [updateProfile], and the four [onChange] handlers
    of the form.  The authentication service, the database client and
    the router are external: what they answer is an input of each
    handler, what is asked of them is recorded in a trace of effects. *)

From Stdlib Require Import List NArith Bool String Ascii Lia PeanoNat.
Import ListNotations.

Set Implicit Arguments.

(** ** JavaScript strings *)

(** A JavaScript string is a sequence of UTF-16 code units, and [.length]
    counts code units.  A code unit is kept as an [N]. *)
Module Js.

Definition code_unit := N.
Definition jsstring := list code_unit.

(** A string literal of the source (all of them are ASCII). *)
Definition lit (s : string) : jsstring :=
  map N_of_ascii (list_ascii_of_string s).

(** [s.length] *)
Definition length (s : jsstring) : nat := List.length s.

(** Truthiness of a string value: only the empty string is falsy. *)
Definition truthy (s : jsstring) : bool :=
  match s with
  | [] => false
  | _ :: _ => true
  end.

(** [a === b] on two strings. *)
Fixpoint eqb (a b : jsstring) : bool :=
  match a, b with
  | [], [] => true
  | x :: a', y :: b' => N.eqb x y && eqb a' b'
  | _, _ => false
  end.

End Js.

Definition jsstring := Js.jsstring.
Definition lit := Js.lit.

(** ** Data *)

(** [interface Profile]: [id] is required, the other fields are optional.
    [None] stands for a field that is [undefined] (or [null] in a row
    read from the database); both are falsy. *)
Record Profile := mkProfile {
  id : jsstring;
  full_name : option jsstring;
  username : option jsstring;
  website : option jsstring;
  bio : option jsstring
}.

(** The object literal handed to [.upsert(...)]. *)
Record UpsertRecord := mkUpsertRecord {
  row_id : jsstring;
  row_full_name : option jsstring;
  row_username : option jsstring;
  row_website : option jsstring;
  row_bio : option jsstring;
  updated_at : jsstring
}.

(** The five [useState] cells of the component. *)
Record State := mkState {
  profile : option Profile;
  isLoading : bool;
  isSaving : bool;
  error : option jsstring;
  successMessage : option jsstring
}.

(** The initial values given to [useState]. *)
Definition initial_state : State :=
  {| profile := None;
     isLoading := true;
     isSaving := false;
     error := None;
     successMessage := None |}.

(** ** What the external services answer *)

(** An error value as the handlers observe it: they read [.code] and
    [.message] and test [instanceof Error].  Whether the [error] object
    of a response is an [Error] instance is up to the client library
    (older releases answer a plain object parsed from the response body). *)
Record ErrorObject := mkErrorObject {
  code : jsstring;
  message : jsstring;
  instanceofError : bool
}.

(** The outcome of an awaited promise. *)
Inductive Settled (A : Type) : Type :=
| Resolved (a : A)
| Rejected (reason : ErrorObject).
Arguments Rejected {A} reason.

Record User := mkUser { user_id : jsstring }.

(** [await supabase.auth.getUser()]: the handler destructures
    [data.user] only and never reads the [error] that comes with it. *)
Record UserResponse := mkUserResponse {
  data_user : option User;
  auth_error : option ErrorObject
}.

(** [await supabase.from('profiles').select('*').eq('id', ...).single()] *)
Record SelectResponse := mkSelectResponse {
  data : option Profile;
  select_error : option ErrorObject
}.

(** [await supabase.from('profiles').upsert(...)]: only [error] is read. *)
Record UpsertResponse := mkUpsertResponse {
  upsert_error : option ErrorObject
}.

(** A value that travels from a [throw] to a [catch]. *)
Inductive Thrown :=
| NewError (msg : jsstring)       (* [new Error(msg)] *)
| ThrownObject (e : ErrorObject). (* [throw error], or the reason of a rejection *)

(** [err instanceof Error] *)
Definition thrown_instanceofError (err : Thrown) : bool :=
  match err with
  | NewError _ => true
  | ThrownObject e => instanceofError e
  end.

(** [err.message] *)
Definition thrown_message (err : Thrown) : jsstring :=
  match err with
  | NewError m => m
  | ThrownObject e => message e
  end.

(** ** Effects *)

(** The calls that leave the component, in the order they are made.
    The two router calls and [console.error] return nothing and do not
    throw; the three awaited calls can be rejected. *)
Inductive Effect :=
| PreventDefault                         (* [e.preventDefault()] *)
| AuthGetUser                            (* [supabase.auth.getUser()] *)
| SelectSingle (user : jsstring)         (* the [profiles] query for one id *)
| Upsert (r : UpsertRecord)              (* the [profiles] upsert *)
| RouterPush (path : jsstring)           (* [router.push(path)] *)
| RouterRefresh                          (* [router.refresh()] *)
| ConsoleError (label : jsstring) (v : Thrown).

(** The call that writes to the database. *)
Definition is_upsert (e : Effect) : bool :=
  match e with
  | Upsert _ => true
  | _ => false
  end.

(** Every call that goes over the network. *)
Definition is_network (e : Effect) : bool :=
  match e with
  | AuthGetUser | SelectSingle _ | Upsert _ => true
  | _ => false
  end.

(** The records written by the upserts of a trace. *)
Fixpoint written (t : list Effect) : list UpsertRecord :=
  match t with
  | [] => []
  | Upsert r :: t' => r :: written t'
  | _ :: t' => written t'
  end.

(** ** The handler monad: state, a trace, and exceptions *)

Record World := mkWorld {
  state : State;
  trace : list Effect
}.

(** How a block of statements ends. *)
Inductive Completion (A : Type) : Type :=
| Normal (a : A)
| Throw (v : Thrown).
Arguments Throw {A} v.

Definition M (A : Type) : Type := World -> Completion A * World.

Definition ret {A} (a : A) : M A := fun w => (Normal a, w).

Definition bind {A B} (m : M A) (k : A -> M B) : M B :=
  fun w =>
    match m w with
    | (Normal a, w') => k a w'
    | (Throw v, w') => (Throw v, w')
    end.

Definition throw {A} (v : Thrown) : M A := fun w => (Throw v, w).

(** [try { body } catch (err) { handler }]: state and trace are kept as
    the body left them. *)
Definition try_catch {A} (body : M A) (handler : Thrown -> M A) : M A :=
  fun w =>
    match body w with
    | (Normal a, w') => (Normal a, w')
    | (Throw v, w') => handler v w'
    end.

(** [... finally { cleanup }]: the cleanup runs however the block ended,
    and the block's completion is kept unless the cleanup throws. *)
Definition finally {A} (block : M A) (cleanup : M unit) : M A :=
  fun w =>
    match block w with
    | (c, w') =>
        match cleanup w' with
        | (Normal _, w'') => (c, w'')
        | (Throw v, w'') => (Throw v, w'')
        end
    end.

Declare Scope handler_scope.
Delimit Scope handler_scope with handler.
Notation "x <- m ;; k" := (bind m (fun x => k))
  (at level 61, m at next level, right associativity) : handler_scope.
Notation "m ;; k" := (bind m (fun _ => k))
  (at level 61, right associativity) : handler_scope.
Open Scope handler_scope.

Definition emit (e : Effect) : M unit :=
  fun w => (Normal tt, {| state := state w; trace := trace w ++ [e] |}).

Definition modify (f : State -> State) : M unit :=
  fun w => (Normal tt, {| state := f (state w); trace := trace w |}).

(** The value of a state cell as the handler's closure sees it. *)
Definition read {A} (f : State -> A) : M A :=
  fun w => (Normal (f (state w)), w).

(** An awaited call: the request is recorded, then the promise either
    yields its value or throws the reason it was rejected with. *)
Definition await {A} (request : Effect) (answer : Settled A) : M A :=
  emit request ;;
  match answer with
  | Resolved a => ret a
  | Rejected reason => throw (ThrownObject reason)
  end.

(** The state setters. *)
Definition setProfile (p : option Profile) : M unit :=
  modify (fun s => {| profile := p; isLoading := isLoading s;
                      isSaving := isSaving s; error := error s;
                      successMessage := successMessage s |}).

Definition setIsLoading (b : bool) : M unit :=
  modify (fun s => {| profile := profile s; isLoading := b;
                      isSaving := isSaving s; error := error s;
                      successMessage := successMessage s |}).

Definition setIsSaving (b : bool) : M unit :=
  modify (fun s => {| profile := profile s; isLoading := isLoading s;
                      isSaving := b; error := error s;
                      successMessage := successMessage s |}).

Definition setError (e : option jsstring) : M unit :=
  modify (fun s => {| profile := profile s; isLoading := isLoading s;
                      isSaving := isSaving s; error := e;
                      successMessage := successMessage s |}).

Definition setSuccessMessage (m : option jsstring) : M unit :=
  modify (fun s => {| profile := profile s; isLoading := isLoading s;
                      isSaving := isSaving s; error := error s;
                      successMessage := m |}).

(** Running a handler on a component state: how it completed, the state
    it leaves, and the calls it made. *)
Definition run {A} (m : M A) (s : State) : Completion A * State * list Effect :=
  match m {| state := s; trace := [] |} with
  | (c, w) => (c, state w, trace w)
  end.

Definition completion_of {A} (r : Completion A * State * list Effect) := fst (fst r).
Definition state_of {A} (r : Completion A * State * list Effect) := snd (fst r).
Definition effects_of {A} (r : Completion A * State * list Effect) := snd r.

(** ** The handlers *)

(** [{ id: user.id }] *)
Definition fresh_profile (i : jsstring) : Profile :=
  {| id := i; full_name := None; username := None;
     website := None; bio := None |}.

(** [fetchProfile], lines 24-46.  [getUser] is what the identity call
    answers, [single] what the profile query answers for a given id. *)
Definition fetchProfile (getUser : Settled UserResponse)
    (single : jsstring -> Settled SelectResponse) : M unit :=
  finally
    (try_catch
       (r <- await AuthGetUser getUser ;;
        match data_user r with
        | None =>
            (* if (!user) { router.push('/auth'); return } *)
            emit (RouterPush (lit "/auth"))
        | Some user =>
            q <- await (SelectSingle (user_id user)) (single (user_id user)) ;;
            match select_error q with
            | Some error => throw (ThrownObject error)
            | None =>
                (* setProfile(data || { id: user.id }) *)
                setProfile (Some match data q with
                                 | Some row => row
                                 | None => fresh_profile (user_id user)
                                 end)
            end
        end)
       (fun error =>
          emit (ConsoleError (lit "Error fetching profile:") error) ;;
          setError (Some (lit "Failed to load profile"))))
    (setIsLoading false).

(** The object literal of lines 68-75. *)
Definition upsert_record (p : Profile) (now : jsstring) : UpsertRecord :=
  {| row_id := id p;
     row_full_name := full_name p;
     row_username := username p;
     row_website := website p;
     row_bio := bio p;
     updated_at := now |}.

(** [updateProfile], lines 52-91.  [now] is what
    [new Date().toISOString()] reads, [upsert] what the database answers
    to the record it is sent. *)
Definition updateProfile (now : jsstring)
    (upsert : UpsertRecord -> Settled UpsertResponse) : M unit :=
  emit PreventDefault ;;
  p <- read profile ;;
  match p with
  | None => ret tt                        (* if (!profile?.id) return *)
  | Some profile =>
      if negb (Js.truthy (id profile)) then ret tt
      else
        setIsSaving true ;;
        setError None ;;
        setSuccessMessage None ;;
        finally
          (try_catch
             ((* Validate username length *)
              match username profile with
              | Some u =>
                  if Js.truthy u && (Js.length u <? 3)
                  then throw (NewError (lit "Username must be at least 3 characters long"))
                  else ret tt
              | None => ret tt
              end ;;
              let record := upsert_record profile now in
              r <- await (Upsert record) (upsert record) ;;
              match upsert_error r with
              | Some error =>
                  if Js.eqb (code error) (lit "23505")
                  then throw (NewError (lit "Username is already taken"))
                  else throw (ThrownObject error)
              | None => ret tt
              end ;;
              setSuccessMessage (Some (lit "Profile updated successfully")) ;;
              emit RouterRefresh)
             (fun err =>
                setError (Some (if thrown_instanceofError err
                                then thrown_message err
                                else lit "Failed to update profile"))))
          (setIsSaving false)
  end.

(** The four [onChange] handlers: [setProfile(profile ? { ...profile,
    field: e.target.value } : null)]. *)
Inductive Field := FullName | Username | Website | Bio.

Definition with_field (f : Field) (v : jsstring) (p : Profile) : Profile :=
  match f with
  | FullName => {| id := id p; full_name := Some v; username := username p;
                   website := website p; bio := bio p |}
  | Username => {| id := id p; full_name := full_name p; username := Some v;
                   website := website p; bio := bio p |}
  | Website => {| id := id p; full_name := full_name p; username := username p;
                  website := Some v; bio := bio p |}
  | Bio => {| id := id p; full_name := full_name p; username := username p;
              website := website p; bio := Some v |}
  end.

Definition onChange (f : Field) (v : jsstring) : M unit :=
  p <- read profile ;;
  setProfile match p with
             | Some profile => Some (with_field f v profile)
             | None => None
             end.

(** ** The component as a transition system *)

(** What can happen to a mounted form: the effect that runs
    [fetchProfile], an edit of one field, a submit. *)
Inductive Event :=
| Load (getUser : Settled UserResponse)
       (single : jsstring -> Settled SelectResponse)
| Change (f : Field) (v : jsstring)
| Submit (now : jsstring) (upsert : UpsertRecord -> Settled UpsertResponse).

Definition handler (e : Event) : M unit :=
  match e with
  | Load getUser single => fetchProfile getUser single
  | Change f v => onChange f v
  | Submit now upsert => updateProfile now upsert
  end.

(** Handlers run one after the other, each to its end and each on the
    state the previous one left: a handler reads [profile] once, from
    the render it was created in, so an edit made while a save is in
    flight is seen by the next save only. *)
Fixpoint handle_all (es : list Event) : M unit :=
  match es with
  | [] => ret tt
  | e :: es' => handler e ;; handle_all es'
  end.

(** Whether a load reaches [setProfile]: a user is there and the query
    answers without an error. *)
Definition load_succeeds (getUser : Settled UserResponse)
    (single : jsstring -> Settled SelectResponse) : bool :=
  match getUser with
  | Resolved r =>
      match data_user r with
      | Some user =>
          match single (user_id user) with
          | Resolved q =>
              match select_error q with
              | None => true
              | Some _ => false
              end
          | Rejected _ => false
          end
      | None => false
      end
  | Rejected _ => false
  end.

(** Whether a load ends in the [catch] block: one of the two awaited
    calls is rejected, or the query answers with an error. *)
Definition load_throws (getUser : Settled UserResponse)
    (single : jsstring -> Settled SelectResponse) : bool :=
  match getUser with
  | Resolved r =>
      match data_user r with
      | Some user =>
          match single (user_id user) with
          | Resolved q =>
              match select_error q with
              | None => false
              | Some _ => true
              end
          | Rejected _ => true
          end
      | None => false
      end
  | Rejected _ => true
  end.

(** Whether one of the two fetches of a load reports a failure, by a
    rejection or by the [error] of its response. *)
Definition fetch_fails (getUser : Settled UserResponse)
    (single : jsstring -> Settled SelectResponse) : bool :=
  match getUser with
  | Resolved r =>
      match auth_error r with
      | Some _ => true
      | None =>
          match data_user r with
          | Some user =>
              match single (user_id user) with
              | Resolved q =>
                  match select_error q with
                  | None => false
                  | Some _ => true
                  end
              | Rejected _ => true
              end
          | None => false
          end
      end
  | Rejected _ => true
  end.

(** ** The [profiles] table behind the query *)

(** The rows of the table, and what the client library documents for the
    query the page sends: [.eq('id', i)] keeps the rows whose [id] is
    [i], and [.single()] answers the row when exactly one is left and an
    error (code [PGRST116]) for none or several. *)
Definition Table := list Profile.

Definition eq_id (i : jsstring) (t : Table) : list Profile :=
  filter (fun row => Js.eqb (id row) i) t.

Definition PGRST116 : ErrorObject :=
  {| code := lit "PGRST116";
     message := lit "JSON object requested, multiple (or no) rows returned";
     instanceofError := false |}.

Definition single_row (rows : list Profile) : SelectResponse :=
  match rows with
  | [row] => {| data := Some row; select_error := None |}
  | _ => {| data := None; select_error := Some PGRST116 |}
  end.

Definition select_single (t : Table) (i : jsstring) : Settled SelectResponse :=
  Resolved (single_row (eq_id i t)).

(** A session with a signed-in user. *)
Definition signed_in (i : jsstring) : Settled UserResponse :=
  Resolved {| data_user := Some {| user_id := i |}; auth_error := None |}.

(** A database that accepts every upsert. *)
Definition accept_upsert (_ : UpsertRecord) : Settled UpsertResponse :=
  Resolved {| upsert_error := None |}.

(** A database that answers every upsert with the error [e]. *)
Definition refuse_upsert (e : ErrorObject) (_ : UpsertRecord) : Settled UpsertResponse :=
  Resolved {| upsert_error := Some e |}.

(** ** Reading the state the way the handlers do *)

(** [profile?.id] when it is truthy: the id a save goes ahead with. *)
Definition loaded_id (s : State) : option jsstring :=
  match profile s with
  | Some p => if Js.truthy (id p) then Some (id p) else None
  | None => None
  end.

(** The length of the username field, 0 when it is absent. *)
Definition username_length (p : Profile) : nat :=
  match username p with
  | Some u => Js.length u
  | None => 0
  end.

(** The three messages of [updateProfile] and the one of [fetchProfile]. *)
Definition msg_too_short : jsstring := lit "Username must be at least 3 characters long".
Definition msg_taken : jsstring := lit "Username is already taken".
Definition msg_update_failed : jsstring := lit "Failed to update profile".
Definition msg_updated : jsstring := lit "Profile updated successfully".
Definition msg_load_failed : jsstring := lit "Failed to load profile".

(** The state a save attempt leaves: the saving flag is back to false
    and the two messages are what the attempt made them. *)
Definition after_save (s : State) (e m : option jsstring) : State :=
  {| profile := profile s; isLoading := isLoading s; isSaving := false;
     error := e; successMessage := m |}.

(** The state a load leaves when it ends in the [catch] block. *)
Definition after_failed_load (s : State) : State :=
  {| profile := profile s; isLoading := false; isSaving := isSaving s;
     error := Some msg_load_failed; successMessage := successMessage s |}.

(** The state a load leaves when no user is signed in. *)
Definition after_redirect (s : State) : State :=
  {| profile := profile s; isLoading := false; isSaving := isSaving s;
     error := error s; successMessage := successMessage s |}.

(** The state a load leaves when it reaches [setProfile]. *)
Definition after_load (s : State) (p : Profile) : State :=
  {| profile := Some p; isLoading := false; isSaving := isSaving s;
     error := error s; successMessage := successMessage s |}.

(** An event that is not a load reaching [setProfile]. *)
Definition no_successful_load (e : Event) : bool :=
  match e with
  | Load getUser single => negb (load_succeeds getUser single)
  | Change _ _ | Submit _ _ => true
  end.

(** ** Sample inputs *)

Definition u1 : jsstring := lit "u1".

(** A form that has loaded the profile [p] and shows no message. *)
Definition ready (p : Profile) : State :=
  {| profile := Some p; isLoading := false; isSaving := false;
     error := None; successMessage := None |}.

Definition named (i u : jsstring) : Profile :=
  {| id := i; full_name := None; username := Some u;
     website := None; bio := None |}.

(** Errors as a database client that parses them from the response
    body hands them over: plain objects. *)
Definition unique_violation : ErrorObject :=
  {| code := lit "23505";
     message := lit "duplicate key value violates unique constraint";
     instanceofError := false |}.

Definition permission_denied : ErrorObject :=
  {| code := lit "42501";
     message := lit "permission denied for table profiles";
     instanceofError := false |}.

(** The same refusal from a client whose errors extend [Error]. *)
Definition permission_denied_error : ErrorObject :=
  {| code := lit "42501";
     message := lit "permission denied for table profiles";
     instanceofError := true |}.

(** The identity service could not be reached: the answer carries the
    error and no user. *)
Definition auth_unreachable : UserResponse :=
  {| data_user := None;
     auth_error := Some {| code := lit "";
                           message := lit "Failed to fetch";
                           instanceofError := true |} |}.

(** A table that holds a row for another user only. *)
Definition other_rows : Table := [named (lit "u2") (lit "bob")].

Definition no_rows (_ : jsstring) : Settled SelectResponse :=
  Resolved {| data := None; select_error := Some PGRST116 |}.

(** Two readings of the clock, one millisecond apart. *)
Definition t0 : jsstring := lit "2024-01-01T00:00:00.000Z".
Definition t1 : jsstring := lit "2024-01-01T00:00:00.001Z".

(** ** What the page shows *)

(** The part of the returned JSX that depends on the state (lines
    93-198): which of the two trees is returned, the two banners, the
    [value] of the four inputs, and the submit button.  Class names and
    fixed texts are left out. *)
Record FormView := mkFormView {
  error_banner : option jsstring;      (* [{error && (...)}], lines 110-114 *)
  success_banner : option jsstring;    (* [{successMessage && (...)}], lines 116-120 *)
  full_name_value : jsstring;          (* line 133 *)
  username_value : jsstring;           (* line 147 *)
  website_value : jsstring;            (* line 164 *)
  bio_value : jsstring;                (* line 177 *)
  submit_disabled : bool;              (* line 188 *)
  submit_label : jsstring              (* line 191 *)
}.

Inductive View :=
| LoadingView                          (* lines 93-99 *)
| Form (v : FormView).                 (* lines 101-198 *)

(** [x && (<banner/>)] on a [string | null]: the banner is there when
    [x] is truthy, and shows [x]. *)
Definition banner (x : option jsstring) : option jsstring :=
  match x with
  | Some text => if Js.truthy text then Some text else None
  | None => None
  end.

(** [x || ''] on an optional string. *)
Definition or_empty (x : option jsstring) : jsstring :=
  match x with
  | Some text => if Js.truthy text then text else lit ""
  | None => lit ""
  end.

(** The field an input edits. *)
Definition field_of (f : Field) (p : Profile) : option jsstring :=
  match f with
  | FullName => full_name p
  | Username => username p
  | Website => website p
  | Bio => bio p
  end.

(** [value={profile?.field || ''}] *)
Definition input_value (f : Field) (s : State) : jsstring :=
  match profile s with
  | Some p => or_empty (field_of f p)
  | None => lit ""
  end.

(** The component's return value for a state. *)
Definition render (s : State) : View :=
  if isLoading s then LoadingView
  else Form {| error_banner := banner (error s);
               success_banner := banner (successMessage s);
               full_name_value := input_value FullName s;
               username_value := input_value Username s;
               website_value := input_value Website s;
               bio_value := input_value Bio s;
               submit_disabled := isSaving s;
               submit_label := if isSaving s then lit "Saving..."
                               else lit "Save Changes" |}.

(** The state of the profile cell after an edit of [f] to [v]. *)
Definition edited (f : Field) (v : jsstring) (s : State) : State :=
  {| profile := match profile s with
                | Some p => Some (with_field f v p)
                | None => None
                end;
     isLoading := isLoading s; isSaving := isSaving s;
     error := error s; successMessage := successMessage s |}.

(** An event other than a load. *)
Definition no_load (e : Event) : bool :=
  match e with
  | Load _ _ => false
  | Change _ _ | Submit _ _ => true
  end.

Definition field_eqb (f g : Field) : bool :=
  match f, g with
  | FullName, FullName | Username, Username
  | Website, Website | Bio, Bio => true
  | _, _ => false
  end.

(** A database client whose errors extend [Error], answering with an
    empty message. *)
Definition silent_error : ErrorObject :=
  {| code := lit "XX000"; message := lit ""; instanceofError := true |}.

(** A rejection whose reason carries the uniqueness code. *)
Definition rejected_23505 : ErrorObject :=
  {| code := lit "23505";
     message := lit "duplicate key value violates unique constraint";
     instanceofError := true |}.

Definition reject_upsert (reason : ErrorObject) (_ : UpsertRecord)
    : Settled UpsertResponse :=
  Rejected reason.

(** A table with one row for [u1]. *)
Definition alice_row : Profile :=
  {| id := u1; full_name := Some (lit "Alice"); username := Some (lit "alice");
     website := None; bio := None |}.

Definition one_row : Table := [named (lit "u2") (lit "bob"); alice_row].

Definition is_submit (e : Event) : bool :=
  match e with
  | Submit _ _ => true
  | Load _ _ | Change _ _ => false
  end.

(** * Properties *)

(** ** Strings *)

Lemma js_eqb_refl (a : jsstring) : Js.eqb a a = true.
Proof.
  induction a as [|x a IH]; simpl.
  - reflexivity.
  - rewrite N.eqb_refl. exact IH.
Qed.

Lemma js_eqb_eq (a b : jsstring) : Js.eqb a b = true <-> a = b.
Proof.
  split.
  - revert b. induction a as [|x a IH]; intros [|y b] H; simpl in H;
      try discriminate; try reflexivity.
    apply andb_true_iff in H. destruct H as [Hxy Hab].
    apply N.eqb_eq in Hxy. apply IH in Hab. congruence.
  - intros ->. apply js_eqb_refl.
Qed.

Lemma js_eqb_neq (a b : jsstring) : a <> b -> Js.eqb a b = false.
Proof.
  intros H. destruct (Js.eqb a b) eqn:E; [|reflexivity].
  apply js_eqb_eq in E. contradiction.
Qed.

(** The test of line 62 fires exactly on usernames of one or two code
    units: the empty string is falsy and never reaches the comparison. *)
Lemma too_short_iff (u : jsstring) :
  Js.truthy u && (Js.length u <? 3) = true <-> 1 <= Js.length u <= 2.
Proof.
  unfold Js.length. destruct u as [|x u]; simpl.
  - split; [discriminate | lia].
  - destruct (Nat.ltb_spec (S (List.length u)) 3); split; intros; try lia;
      try reflexivity; discriminate.
Qed.

Lemma not_too_short (u : jsstring) :
  Js.length u = 0 \/ 3 <= Js.length u ->
  Js.truthy u && (Js.length u <? 3) = false.
Proof.
  intros H. destruct (Js.truthy u && (Js.length u <? 3)) eqn:E; [|reflexivity].
  apply too_short_iff in E. lia.
Qed.

(** ** Traces *)

Lemma written_app (t1 t2 : list Effect) :
  written (t1 ++ t2) = written t1 ++ written t2.
Proof.
  induction t1 as [|e t1 IH]; simpl.
  - reflexivity.
  - destruct e; simpl; rewrite IH; reflexivity.
Qed.

Lemma state_eta (s : State) :
  {| profile := profile s; isLoading := isLoading s; isSaving := isSaving s;
     error := error s; successMessage := successMessage s |} = s.
Proof. destruct s; reflexivity. Qed.

(** ** The save handler, case by case *)

Ltac exec := cbn -[lit Nat.ltb Js.eqb Js.truthy Js.length upsert_record].

Ltac enter_save Hp Hid :=
  unfold updateProfile; exec; rewrite Hp; exec; rewrite Hid; exec;
  unfold finally, try_catch, bind.

(** Without a profile, or with one whose id is falsy, the handler
    returns right after [e.preventDefault()]. *)
Lemma save_without_id (w : World) now upsert :
  loaded_id (state w) = None ->
  updateProfile now upsert w =
    (Normal tt, {| state := state w; trace := trace w ++ [PreventDefault] |}).
Proof.
  unfold loaded_id, updateProfile. exec.
  destruct (profile (state w)) as [p|]; [|reflexivity].
  destruct (Js.truthy (id p)); [discriminate|reflexivity].
Qed.

(** Line 62 passes every profile whose username is absent, empty or at
    least three code units long. *)
Lemma validation_passes (p : Profile) (m : M unit) :
  username_length p = 0 \/ 3 <= username_length p ->
  match username p with
  | Some u => if Js.truthy u && (Js.length u <? 3) then m else ret tt
  | None => ret tt
  end = ret tt.
Proof.
  unfold username_length. destruct (username p) as [u|]; [|reflexivity].
  intros H. rewrite (not_too_short u H). reflexivity.
Qed.

Lemma save_too_short (w : World) p now upsert :
  profile (state w) = Some p -> Js.truthy (id p) = true ->
  1 <= username_length p <= 2 ->
  updateProfile now upsert w =
    (Normal tt,
     {| state := after_save (state w) (Some msg_too_short) None;
        trace := trace w ++ [PreventDefault] |}).
Proof.
  intros Hp Hid Hlen. enter_save Hp Hid.
  unfold username_length in Hlen.
  destruct (username p) as [u|]; [|lia].
  rewrite (proj2 (too_short_iff u) Hlen). reflexivity.
Qed.

Lemma save_rejected (w : World) p now upsert reason :
  profile (state w) = Some p -> Js.truthy (id p) = true ->
  username_length p = 0 \/ 3 <= username_length p ->
  upsert (upsert_record p now) = Rejected reason ->
  updateProfile now upsert w =
    (Normal tt,
     {| state := after_save (state w)
                   (Some (if instanceofError reason then message reason
                          else msg_update_failed)) None;
        trace := trace w ++ [PreventDefault; Upsert (upsert_record p now)] |}).
Proof.
  intros Hp Hid Hlen Hup. enter_save Hp Hid.
  rewrite (validation_passes p _ Hlen). exec. rewrite Hup. exec.
  rewrite <- app_assoc. reflexivity.
Qed.

Lemma save_taken (w : World) p now upsert e :
  profile (state w) = Some p -> Js.truthy (id p) = true ->
  username_length p = 0 \/ 3 <= username_length p ->
  upsert (upsert_record p now) = Resolved {| upsert_error := Some e |} ->
  code e = lit "23505" ->
  updateProfile now upsert w =
    (Normal tt,
     {| state := after_save (state w) (Some msg_taken) None;
        trace := trace w ++ [PreventDefault; Upsert (upsert_record p now)] |}).
Proof.
  intros Hp Hid Hlen Hup Hcode. enter_save Hp Hid.
  rewrite (validation_passes p _ Hlen). exec. rewrite Hup. exec.
  rewrite Hcode, js_eqb_refl, <- app_assoc. reflexivity.
Qed.

Lemma save_refused (w : World) p now upsert e :
  profile (state w) = Some p -> Js.truthy (id p) = true ->
  username_length p = 0 \/ 3 <= username_length p ->
  upsert (upsert_record p now) = Resolved {| upsert_error := Some e |} ->
  code e <> lit "23505" ->
  updateProfile now upsert w =
    (Normal tt,
     {| state := after_save (state w)
                   (Some (if instanceofError e then message e
                          else msg_update_failed)) None;
        trace := trace w ++ [PreventDefault; Upsert (upsert_record p now)] |}).
Proof.
  intros Hp Hid Hlen Hup Hcode. enter_save Hp Hid.
  rewrite (validation_passes p _ Hlen). exec. rewrite Hup. exec.
  rewrite (js_eqb_neq Hcode), <- app_assoc. reflexivity.
Qed.

Lemma save_accepted (w : World) p now upsert :
  profile (state w) = Some p -> Js.truthy (id p) = true ->
  username_length p = 0 \/ 3 <= username_length p ->
  upsert (upsert_record p now) = Resolved {| upsert_error := None |} ->
  updateProfile now upsert w =
    (Normal tt,
     {| state := after_save (state w) None (Some msg_updated);
        trace := trace w ++ [PreventDefault; Upsert (upsert_record p now);
                             RouterRefresh] |}).
Proof.
  intros Hp Hid Hlen Hup. enter_save Hp Hid.
  rewrite (validation_passes p _ Hlen). exec. rewrite Hup. exec.
  rewrite <- !app_assoc. reflexivity.
Qed.

(** A handler run from a component state is the handler applied to that
    state with an empty trace. *)
Lemma run_eq {A} (m : M A) (s : State) c w :
  m {| state := s; trace := [] |} = (c, w) ->
  run m s = (c, state w, trace w).
Proof. unfold run. intros ->. reflexivity. Qed.

(** Every attempt (a save that gets past line 54) completes normally,
    leaves the saving flag false, and falls in one of two classes by the
    length of the username. *)
Lemma save_attempt (w : World) p now upsert :
  profile (state w) = Some p -> Js.truthy (id p) = true ->
  exists e m t,
    updateProfile now upsert w =
      (Normal tt,
       {| state := after_save (state w) e m;
          trace := trace w ++ PreventDefault :: t |}) /\
    (e = None \/ m = None) /\
    (1 <= username_length p <= 2 ->
       e = Some msg_too_short /\ m = None /\ t = []) /\
    (username_length p = 0 \/ 3 <= username_length p ->
       written t = [upsert_record p now]).
Proof.
  intros Hp Hid.
  assert (Hcase : 1 <= username_length p <= 2 \/
                  (username_length p = 0 \/ 3 <= username_length p)) by lia.
  destruct Hcase as [Hshort | Hok].
  - exists (Some msg_too_short), None, [].
    rewrite (save_too_short w now upsert Hp Hid Hshort).
    repeat split; auto; lia.
  - destruct (upsert (upsert_record p now)) as [[[e|]]|reason] eqn:Hup.
    + destruct (list_eq_dec N.eq_dec (code e) (lit "23505")) as [Hc|Hc].
      * exists (Some msg_taken), None, [Upsert (upsert_record p now)].
        rewrite (save_taken w now upsert Hp Hid Hok Hup Hc).
        repeat split; auto; lia.
      * eexists _, None, [Upsert (upsert_record p now)].
        rewrite (save_refused w now upsert Hp Hid Hok Hup Hc).
        repeat split; auto; lia.
    + exists None, (Some msg_updated), [Upsert (upsert_record p now); RouterRefresh].
      rewrite (save_accepted w now upsert Hp Hid Hok Hup).
      repeat split; auto; lia.
    + eexists _, None, [Upsert (upsert_record p now)].
      rewrite (save_rejected w now upsert Hp Hid Hok Hup).
      repeat split; auto; lia.
Qed.

(** ** Claims about [updateProfile] *)

(** C7.  A save in a state with no loaded profile id (no profile, or a
    profile whose id is falsy) only calls [e.preventDefault()] and
    returns: the component state (profile, error message, success
    message, saving flag, loading flag) is the one it started from and
    no network call is made. *)
Theorem save_without_id_is_noop (s : State) now upsert :
  loaded_id s = None ->
  let r := run (updateProfile now upsert) s in
  completion_of r = Normal tt /\
  state_of r = s /\
  effects_of r = [PreventDefault] /\
  filter is_network (effects_of r) = [].
Proof.
  intros H r. subst r.
  rewrite (run_eq _ _ (save_without_id {| state := s; trace := [] |} now upsert H)).
  repeat split.
Qed.

Lemma save_without_id_is_noop_witness :
  loaded_id initial_state = None /\
  state_of (run (updateProfile t0 accept_upsert) initial_state) = initial_state.
Proof.
  split; [reflexivity|].
  apply (save_without_id_is_noop initial_state t0 accept_upsert). reflexivity.
Defined.

(** C1, as stated, fails on the code: with a loaded id and a username
    that is absent, or the empty string, no validation error is raised
    and the upsert is sent. *)
Lemma empty_username_is_not_rejected :
  let absent := ready (fresh_profile u1) in
  let empty := ready (named u1 (lit "")) in
  (username_length (fresh_profile u1) = 0 /\
   error (state_of (run (updateProfile t0 accept_upsert) absent)) <> Some msg_too_short /\
   written (effects_of (run (updateProfile t0 accept_upsert) absent))
     = [upsert_record (fresh_profile u1) t0]) /\
  (username_length (named u1 (lit "")) = 0 /\
   error (state_of (run (updateProfile t0 accept_upsert) empty)) <> Some msg_too_short /\
   written (effects_of (run (updateProfile t0 accept_upsert) empty))
     = [upsert_record (named u1 (lit "")) t0]).
Proof.
  cbv zeta. repeat split; try reflexivity; vm_compute; discriminate.
Qed.

(** C1, amended.  For every save with a loaded profile id: if the
    username has length 1 or 2 the save fails locally with the
    validation message, the success message stays unset and nothing but
    [e.preventDefault()] is called (no upsert); if the username is
    absent, empty, or has length at least 3 the local check passes and
    exactly one upsert, of the record built from the profile, is
    attempted. *)
Theorem username_validation (s : State) p now upsert :
  profile s = Some p -> Js.truthy (id p) = true ->
  let r := run (updateProfile now upsert) s in
  (1 <= username_length p <= 2 ->
     error (state_of r) = Some msg_too_short /\
     successMessage (state_of r) = None /\
     effects_of r = [PreventDefault]) /\
  (username_length p = 0 \/ 3 <= username_length p ->
     written (effects_of r) = [upsert_record p now]).
Proof.
  intros Hp Hid r. subst r.
  destruct (save_attempt {| state := s; trace := [] |} now upsert Hp Hid)
    as (e & m & t & Hrun & _ & Hshort & Hok).
  rewrite (run_eq _ _ Hrun). cbn.
  split.
  - intros H. destruct (Hshort H) as (-> & -> & ->). repeat split.
  - intros H. exact (Hok H).
Qed.

Lemma username_validation_witness :
  (error (state_of (run (updateProfile t0 accept_upsert) (ready (named u1 (lit "ab")))))
     = Some msg_too_short /\
   effects_of (run (updateProfile t0 accept_upsert) (ready (named u1 (lit "ab"))))
     = [PreventDefault]) /\
  written (effects_of (run (updateProfile t0 accept_upsert) (ready (named u1 (lit "abc")))))
    = [upsert_record (named u1 (lit "abc")) t0].
Proof.
  split.
  - destruct (proj1 (username_validation (ready (named u1 (lit "ab"))) t0 accept_upsert
                       eq_refl eq_refl)) as (He & _ & Ht).
    + vm_compute. lia.
    + split; assumption.
  - apply (proj2 (username_validation (ready (named u1 (lit "abc"))) t0 accept_upsert
                    eq_refl eq_refl)).
    right. vm_compute. lia.
Defined.

(** C3.  When the upsert of a save answers with an error whose code is
    ['23505'], the error message the save leaves is exactly
    "Username is already taken" and the success message is unset. *)
Theorem taken_username_message (s : State) p now upsert e :
  profile s = Some p -> Js.truthy (id p) = true ->
  username_length p = 0 \/ 3 <= username_length p ->
  upsert (upsert_record p now) = Resolved {| upsert_error := Some e |} ->
  code e = lit "23505" ->
  let r := run (updateProfile now upsert) s in
  error (state_of r) = Some (lit "Username is already taken") /\
  successMessage (state_of r) = None.
Proof.
  intros Hp Hid Hlen Hup Hcode r. subst r.
  rewrite (run_eq _ _ (save_taken {| state := s; trace := [] |} now upsert
                         Hp Hid Hlen Hup Hcode)).
  split; reflexivity.
Qed.

Lemma taken_username_message_witness :
  let r := run (updateProfile t0 (refuse_upsert unique_violation))
               (ready (named u1 (lit "alice"))) in
  error (state_of r) = Some (lit "Username is already taken") /\
  successMessage (state_of r) = None.
Proof.
  apply (taken_username_message (ready (named u1 (lit "alice"))) t0
           (refuse_upsert unique_violation)
           (p := named u1 (lit "alice")) (e := unique_violation)).
  - reflexivity.
  - reflexivity.
  - right. vm_compute. lia.
  - reflexivity.
  - reflexivity.
Defined.

(** C4.  When a save passes the local validation and its upsert answers
    without an error, the error message is null, the success message is
    set, and [router.refresh()] is called after the upsert. *)
Theorem accepted_save (s : State) p now upsert :
  profile s = Some p -> Js.truthy (id p) = true ->
  username_length p = 0 \/ 3 <= username_length p ->
  upsert (upsert_record p now) = Resolved {| upsert_error := None |} ->
  let r := run (updateProfile now upsert) s in
  error (state_of r) = None /\
  successMessage (state_of r) = Some (lit "Profile updated successfully") /\
  effects_of r = [PreventDefault; Upsert (upsert_record p now); RouterRefresh].
Proof.
  intros Hp Hid Hlen Hup r. subst r.
  rewrite (run_eq _ _ (save_accepted {| state := s; trace := [] |} now upsert
                         Hp Hid Hlen Hup)).
  repeat split.
Qed.

Lemma accepted_save_witness :
  let r := run (updateProfile t0 accept_upsert) (ready (named u1 (lit "alice"))) in
  error (state_of r) = None /\
  successMessage (state_of r) = Some (lit "Profile updated successfully") /\
  effects_of r = [PreventDefault; Upsert (upsert_record (named u1 (lit "alice")) t0);
                  RouterRefresh].
Proof.
  apply (accepted_save (ready (named u1 (lit "alice"))) t0 accept_upsert
           (p := named u1 (lit "alice"))).
  - reflexivity.
  - reflexivity.
  - right. vm_compute. lia.
  - reflexivity.
Defined.

(** C6, as stated, fails on the code: an error that is not the
    uniqueness violation and carries a message, but is a plain object
    and not an [Error] instance, leaves the generic message and not its
    own. *)
Lemma plain_error_message_is_dropped :
  let r := run (updateProfile t0 (refuse_upsert permission_denied))
               (ready (named u1 (lit "alice"))) in
  code permission_denied <> lit "23505" /\
  error (state_of r) <> Some (message permission_denied) /\
  error (state_of r) = Some (lit "Failed to update profile").
Proof.
  cbv zeta. repeat split; vm_compute; discriminate.
Qed.

(** C6, amended.  When the upsert of a save answers with an error whose
    code is not ['23505'], the error message the save leaves is the
    error's own message when the error is an [Error] instance, and
    "Failed to update profile" otherwise; the success message is
    unset. *)
Theorem other_error_message (s : State) p now upsert e :
  profile s = Some p -> Js.truthy (id p) = true ->
  username_length p = 0 \/ 3 <= username_length p ->
  upsert (upsert_record p now) = Resolved {| upsert_error := Some e |} ->
  code e <> lit "23505" ->
  let r := run (updateProfile now upsert) s in
  error (state_of r) =
    Some (if instanceofError e then message e
          else lit "Failed to update profile") /\
  successMessage (state_of r) = None.
Proof.
  intros Hp Hid Hlen Hup Hcode r. subst r.
  rewrite (run_eq _ _ (save_refused {| state := s; trace := [] |} now upsert
                         Hp Hid Hlen Hup Hcode)).
  split; reflexivity.
Qed.

Lemma other_error_message_witness :
  error (state_of (run (updateProfile t0 (refuse_upsert permission_denied_error))
                       (ready (named u1 (lit "alice")))))
    = Some (lit "permission denied for table profiles").
Proof.
  apply (other_error_message (ready (named u1 (lit "alice"))) t0
           (refuse_upsert permission_denied_error)
           (p := named u1 (lit "alice")) (e := permission_denied_error)).
  - reflexivity.
  - reflexivity.
  - right. vm_compute. lia.
  - reflexivity.
  - vm_compute. discriminate.
Defined.

(** C9.  After every save attempt (a save with a loaded profile id),
    whatever the username and whatever the database answers, the
    handler has completed without throwing, the saving flag is false,
    and the error message and the success message are not both set. *)
Theorem messages_exclusive (s : State) now upsert :
  loaded_id s <> None ->
  let r := run (updateProfile now upsert) s in
  completion_of r = Normal tt /\
  isSaving (state_of r) = false /\
  (error (state_of r) = None \/ successMessage (state_of r) = None).
Proof.
  intros Hid r. subst r. unfold loaded_id in Hid.
  destruct (profile s) as [p|] eqn:Hp; [|contradiction].
  destruct (Js.truthy (id p)) eqn:Ht; [|contradiction].
  destruct (save_attempt {| state := s; trace := [] |} now upsert Hp Ht)
    as (e & m & t & Hrun & Hex & _).
  rewrite (run_eq _ _ Hrun). cbn. auto.
Qed.

Lemma messages_exclusive_witness :
  let r := run (updateProfile t0 (refuse_upsert permission_denied))
               {| profile := Some (named u1 (lit "alice")); isLoading := false;
                  isSaving := false; error := Some msg_taken;
                  successMessage := Some msg_updated |} in
  completion_of r = Normal tt /\
  isSaving (state_of r) = false /\
  (error (state_of r) = None \/ successMessage (state_of r) = None).
Proof.
  apply messages_exclusive. vm_compute. discriminate.
Defined.

(** C8, as stated, fails on the code: two saves of the same field
    values, both accepted, write two different records as soon as the
    clock has moved between them. *)
Lemma second_save_writes_another_record :
  let r := run (handle_all [Submit t0 accept_upsert; Submit t1 accept_upsert])
               (ready (named u1 (lit "alice"))) in
  exists first second,
    written (effects_of r) = [first; second] /\ second <> first.
Proof.
  cbv zeta.
  exists (upsert_record (named u1 (lit "alice")) t0),
         (upsert_record (named u1 (lit "alice")) t1).
  split; [reflexivity | vm_compute; discriminate].
Qed.

(** C8, amended.  Two saves in succession with the same field values,
    against a database that accepts every upsert, write two records
    with the same [id], [full_name], [username], [website] and [bio];
    [updated_at] is the clock reading of each save, so the two records
    are equal exactly when the two readings are. *)
Theorem save_twice (s : State) p now1 now2 upsert :
  profile s = Some p -> Js.truthy (id p) = true ->
  username_length p = 0 \/ 3 <= username_length p ->
  (forall record, upsert record = Resolved {| upsert_error := None |}) ->
  let r := run (handle_all [Submit now1 upsert; Submit now2 upsert]) s in
  exists first second,
    written (effects_of r) = [first; second] /\
    row_id second = row_id first /\
    row_full_name second = row_full_name first /\
    row_username second = row_username first /\
    row_website second = row_website first /\
    row_bio second = row_bio first /\
    updated_at first = now1 /\
    updated_at second = now2 /\
    (second = first <-> now2 = now1).
Proof.
  intros Hp Hid Hlen Hup r. subst r.
  exists (upsert_record p now1), (upsert_record p now2).
  split.
  - unfold run, handle_all, handler, bind.
    rewrite (save_accepted {| state := s; trace := [] |} now1 upsert
               Hp Hid Hlen (Hup _)).
    match goal with
    | |- context [updateProfile now2 upsert ?w] =>
        rewrite (save_accepted w now2 upsert (p := p) Hp Hid Hlen (Hup _))
    end.
    reflexivity.
  - repeat split; try reflexivity.
    + intros H. apply (f_equal updated_at) in H. exact H.
    + intros ->. reflexivity.
Qed.

Lemma save_twice_witness :
  exists first second,
    written (effects_of (run (handle_all [Submit t0 accept_upsert; Submit t0 accept_upsert])
                             (ready (named u1 (lit "alice")))))
      = [first; second] /\
    second = first.
Proof.
  assert (Hlen : username_length (named u1 (lit "alice")) = 0 \/
                 3 <= username_length (named u1 (lit "alice")))
    by (right; vm_compute; lia).
  destruct (save_twice (ready (named u1 (lit "alice"))) t0 t0 accept_upsert
              (p := named u1 (lit "alice")) eq_refl eq_refl
              Hlen (fun _ => eq_refl))
    as (first & second & Hw & _ & _ & _ & _ & _ & _ & _ & Heq).
  exists first, second. split; [exact Hw | apply Heq; reflexivity].
Defined.

(** ** The load handler, case by case *)

Ltac enter_load := unfold fetchProfile, finally, try_catch, bind, await; exec.

Lemma load_rejected_user (w : World) single reason :
  fetchProfile (Rejected reason) single w =
    (Normal tt,
     {| state := after_failed_load (state w);
        trace := trace w ++ [AuthGetUser;
                             ConsoleError (lit "Error fetching profile:")
                                          (ThrownObject reason)] |}).
Proof. enter_load. rewrite <- app_assoc. reflexivity. Qed.

Lemma load_no_user (w : World) single r :
  data_user r = None ->
  fetchProfile (Resolved r) single w =
    (Normal tt,
     {| state := after_redirect (state w);
        trace := trace w ++ [AuthGetUser; RouterPush (lit "/auth")] |}).
Proof.
  intros Hr. enter_load. rewrite Hr. exec. rewrite <- app_assoc. reflexivity.
Qed.

Lemma load_rejected_select (w : World) single r user reason :
  data_user r = Some user ->
  single (user_id user) = Rejected reason ->
  fetchProfile (Resolved r) single w =
    (Normal tt,
     {| state := after_failed_load (state w);
        trace := trace w ++ [AuthGetUser; SelectSingle (user_id user);
                             ConsoleError (lit "Error fetching profile:")
                                          (ThrownObject reason)] |}).
Proof.
  intros Hr Hq. enter_load. rewrite Hr. exec. rewrite Hq. exec.
  rewrite <- !app_assoc. reflexivity.
Qed.

Lemma load_select_error (w : World) single r user q e :
  data_user r = Some user ->
  single (user_id user) = Resolved q ->
  select_error q = Some e ->
  fetchProfile (Resolved r) single w =
    (Normal tt,
     {| state := after_failed_load (state w);
        trace := trace w ++ [AuthGetUser; SelectSingle (user_id user);
                             ConsoleError (lit "Error fetching profile:")
                                          (ThrownObject e)] |}).
Proof.
  intros Hr Hq He. enter_load. rewrite Hr. exec. rewrite Hq. exec.
  rewrite He. exec. rewrite <- !app_assoc. reflexivity.
Qed.

Lemma load_answered (w : World) single r user q :
  data_user r = Some user ->
  single (user_id user) = Resolved q ->
  select_error q = None ->
  fetchProfile (Resolved r) single w =
    (Normal tt,
     {| state := after_load (state w)
                   match data q with
                   | Some row => row
                   | None => fresh_profile (user_id user)
                   end;
        trace := trace w ++ [AuthGetUser; SelectSingle (user_id user)] |}).
Proof.
  intros Hr Hq He. enter_load. rewrite Hr. exec. rewrite Hq. exec.
  rewrite He. exec. rewrite <- !app_assoc. reflexivity.
Qed.

Lemma load_throws_not_succeeds getUser single :
  load_throws getUser single = true -> load_succeeds getUser single = false.
Proof.
  unfold load_throws, load_succeeds.
  destruct getUser as [r|reason]; [|reflexivity].
  destruct (data_user r) as [user|]; [|reflexivity].
  destruct (single (user_id user)) as [q|reason]; [|reflexivity].
  destruct (select_error q); [reflexivity|discriminate].
Qed.

(** Every load completes normally with the loading flag false and
    writes nothing; it sets the generic message when it went through
    the [catch] block, and touches the profile only when it succeeds. *)
Lemma load_cases (w : World) getUser single :
  exists s' t,
    fetchProfile getUser single w =
      (Normal tt, {| state := s'; trace := trace w ++ t |}) /\
    isLoading s' = false /\
    written t = [] /\
    (load_throws getUser single = true -> s' = after_failed_load (state w)) /\
    (load_succeeds getUser single = false -> profile s' = profile (state w)).
Proof.
  unfold load_throws, load_succeeds.
  destruct getUser as [r|reason].
  - destruct (data_user r) as [user|] eqn:Hr.
    + destruct (single (user_id user)) as [q|reason] eqn:Hq.
      * destruct (select_error q) as [e|] eqn:He.
        -- eexists _, _. rewrite (load_select_error w single r Hr Hq He).
           repeat split; auto.
        -- eexists _, _. rewrite (load_answered w single r Hr Hq He).
           repeat split; auto; discriminate.
      * eexists _, _. rewrite (load_rejected_select w single r Hr Hq).
        repeat split; auto.
    + eexists _, _. rewrite (load_no_user w single r Hr).
      repeat split; auto; discriminate.
  - eexists _, _. rewrite (load_rejected_user w single reason).
    repeat split; auto.
Qed.

(** ** Claims about [fetchProfile] *)

(** C5, as stated, fails on the code: an identity fetch that fails by
    answering with an error (and so without a user) is taken for a
    missing session: the page is sent to [/auth] and no error message
    is set. *)
Lemma failed_identity_fetch_redirects :
  let r := run (fetchProfile (Resolved auth_unreachable) no_rows) initial_state in
  fetch_fails (Resolved auth_unreachable) no_rows = true /\
  error (state_of r) <> Some (lit "Failed to load profile") /\
  error (state_of r) = None /\
  effects_of r = [AuthGetUser; RouterPush (lit "/auth")].
Proof.
  cbv zeta. repeat split; vm_compute; discriminate.
Qed.

(** C5, amended.  Every load completes without throwing and leaves the
    loading flag false, whatever the two fetches answer (success,
    failure or redirect).  When the identity fetch or the profile fetch
    is rejected, or the profile fetch answers with an error, the error
    message is set to "Failed to load profile".  When the identity
    fetch answers without a user, with or without an error, the error
    message is left as it was and the page is sent to [/auth]. *)
Theorem load_failure_is_caught (s : State) getUser single :
  let r := run (fetchProfile getUser single) s in
  completion_of r = Normal tt /\
  isLoading (state_of r) = false /\
  (load_throws getUser single = true ->
     error (state_of r) = Some (lit "Failed to load profile")) /\
  (forall answer, getUser = Resolved answer -> data_user answer = None ->
     error (state_of r) = error s /\
     effects_of r = [AuthGetUser; RouterPush (lit "/auth")]).
Proof.
  intros r. subst r.
  destruct (load_cases {| state := s; trace := [] |} getUser single)
    as (s' & t & Hrun & Hload & _ & Hthrows & _).
  split; [|split; [|split]].
  - rewrite (run_eq _ _ Hrun). reflexivity.
  - rewrite (run_eq _ _ Hrun). exact Hload.
  - intros H. rewrite (run_eq _ _ Hrun). cbn. rewrite (Hthrows H). reflexivity.
  - intros answer -> Hnone.
    rewrite (run_eq _ _ (load_no_user {| state := s; trace := [] |} single
                           answer Hnone)).
    split; reflexivity.
Qed.

Lemma load_failure_is_caught_witness :
  let failing (_ : jsstring) : Settled SelectResponse := Rejected permission_denied in
  let r := run (fetchProfile (signed_in u1) failing) initial_state in
  completion_of r = Normal tt /\
  isLoading (state_of r) = false /\
  error (state_of r) = Some (lit "Failed to load profile").
Proof.
  intros failing r.
  destruct (load_failure_is_caught initial_state (signed_in u1) failing)
    as (Hc & Hl & He & _).
  split; [exact Hc | split; [exact Hl | apply He; reflexivity]].
Defined.

(** The branch [data || { id: user.id }]: when the query answers with
    neither a row nor an error, the profile becomes a record with only
    the id of the session. *)
Lemma load_null_data (s : State) i single :
  single i = Resolved {| data := None; select_error := None |} ->
  let r := run (fetchProfile (signed_in i) single) s in
  profile (state_of r) = Some (fresh_profile i) /\
  error (state_of r) = error s.
Proof.
  intros Hq r. subst r. unfold signed_in.
  rewrite (run_eq _ _ (load_answered {| state := s; trace := [] |} single
                         {| data_user := Some {| user_id := i |};
                            auth_error := None |}
                         (user := {| user_id := i |}) eq_refl Hq eq_refl)).
  split; reflexivity.
Qed.

(** With exactly one row for the user, the profile becomes that row. *)
Lemma load_single_row (s : State) (table : Table) i row :
  eq_id i table = [row] ->
  let r := run (fetchProfile (signed_in i) (select_single table)) s in
  profile (state_of r) = Some row /\
  error (state_of r) = error s /\
  isLoading (state_of r) = false.
Proof.
  intros Hrows r. subst r.
  assert (Hq : select_single table i = Resolved (single_row [row])).
  { unfold select_single. rewrite Hrows. reflexivity. }
  unfold signed_in.
  rewrite (run_eq _ _ (load_answered {| state := s; trace := [] |}
                         (select_single table)
                         {| data_user := Some {| user_id := i |};
                            auth_error := None |}
                         (user := {| user_id := i |}) eq_refl Hq eq_refl)).
  split; [|split]; reflexivity.
Qed.

(** C2 on the code.  For a signed-in user with no row in the table, the
    [.single()] query answers with an error, so the load goes through
    the [catch] block: the profile stays as it was (null on a fresh
    page) and the error message is "Failed to load profile".  The
    fallback record [{ id: user.id }] is never reached. *)
Theorem load_without_row (s : State) (table : Table) i :
  eq_id i table = [] ->
  let r := run (fetchProfile (signed_in i) (select_single table)) s in
  profile (state_of r) = profile s /\
  error (state_of r) = Some (lit "Failed to load profile") /\
  isLoading (state_of r) = false.
Proof.
  intros Hrows r. subst r.
  assert (Hq : select_single table i = Resolved (single_row [])).
  { unfold select_single. rewrite Hrows. reflexivity. }
  unfold signed_in.
  rewrite (run_eq _ _ (load_select_error {| state := s; trace := [] |}
                         (select_single table)
                         {| data_user := Some {| user_id := i |};
                            auth_error := None |}
                         (user := {| user_id := i |}) (e := PGRST116)
                         eq_refl Hq eq_refl)).
  repeat split.
Qed.

Lemma load_without_row_witness :
  let r := run (fetchProfile (signed_in u1) (select_single other_rows)) initial_state in
  eq_id u1 other_rows = [] /\
  profile (state_of r) = None /\
  error (state_of r) = Some (lit "Failed to load profile") /\
  isLoading (state_of r) = false.
Proof.
  split; [reflexivity|].
  apply (load_without_row initial_state other_rows u1). reflexivity.
Defined.

(** ** A form whose load has not succeeded *)

Lemma world_eta (w : World) :
  {| state := state w; trace := trace w ++ [] |} = w.
Proof. destruct w; cbn. rewrite app_nil_r. reflexivity. Qed.

(** With a null profile, an edit keeps it null ([profile ? ... : null]),
    a save returns at line 54, and a load that does not succeed never
    reaches [setProfile]: no handler writes, and the profile is still
    null afterwards. *)
Lemma handler_keeps_null (e : Event) (w : World) :
  no_successful_load e = true ->
  profile (state w) = None ->
  exists s' t,
    handler e w = (Normal tt, {| state := s'; trace := trace w ++ t |}) /\
    profile s' = None /\
    written t = [].
Proof.
  intros He Hp. destruct e as [getUser single | f v | now upsert]; cbn in He;
    unfold handler.
  - apply negb_true_iff in He.
    destruct (load_cases w getUser single) as (s' & t & Hrun & _ & Hw & _ & Hkeep).
    exists s', t. rewrite (Hkeep He). auto.
  - eexists _, []. unfold onChange, bind, read, setProfile, modify.
    rewrite Hp, app_nil_r. split; [reflexivity|]. split; reflexivity.
  - exists (state w), [PreventDefault].
    rewrite save_without_id by (unfold loaded_id; rewrite Hp; reflexivity).
    auto.
Qed.

Lemma handle_all_keeps_null (es : list Event) :
  forall w : World,
    forallb no_successful_load es = true ->
    profile (state w) = None ->
    exists s' t,
      handle_all es w = (Normal tt, {| state := s'; trace := trace w ++ t |}) /\
      profile s' = None /\
      written t = [].
Proof.
  induction es as [|e es IH]; intros w Hes Hp; cbn in Hes.
  - exists (state w), []. cbn. unfold ret. rewrite world_eta. auto.
  - apply andb_true_iff in Hes. destruct Hes as [He Hes].
    destruct (handler_keeps_null e w He Hp) as (s1 & t1 & Hrun1 & Hp1 & Hw1).
    destruct (IH {| state := s1; trace := trace w ++ t1 |} Hes Hp1)
      as (s2 & t2 & Hrun2 & Hp2 & Hw2).
    exists s2, (t1 ++ t2). cbn. unfold bind. rewrite Hrun1, Hrun2.
    cbn. rewrite app_assoc, written_app, Hw1, Hw2. auto.
Qed.

(** C10.  After a load that failed on a form whose profile was null,
    the profile is still null; and as long as no later load succeeds,
    whatever is edited, saved or loaded meanwhile, the profile stays
    null, no upsert is sent, and a save does nothing but call
    [e.preventDefault()]: it leaves the state as it is and makes no
    network call. *)
Theorem failed_load_disables_save (s : State) getUser single :
  profile s = None ->
  load_throws getUser single = true ->
  let s1 := state_of (run (fetchProfile getUser single) s) in
  profile s1 = None /\
  forall es : list Event,
    forallb no_successful_load es = true ->
    let r := run (handle_all es) s1 in
    completion_of r = Normal tt /\
    profile (state_of r) = None /\
    written (effects_of r) = [] /\
    forall now upsert,
      run (updateProfile now upsert) (state_of r)
        = (Normal tt, state_of r, [PreventDefault]).
Proof.
  intros Hp Hfail s1.
  assert (Hp1 : profile s1 = None).
  { subst s1.
    destruct (load_cases {| state := s; trace := [] |} getUser single)
      as (s' & t & Hrun & _ & _ & _ & Hkeep).
    rewrite (run_eq _ _ Hrun). cbn.
    rewrite (Hkeep (load_throws_not_succeeds _ _ Hfail)). exact Hp. }
  split; [exact Hp1|].
  intros es Hes r. subst r.
  destruct (handle_all_keeps_null es {| state := s1; trace := [] |} Hes Hp1)
    as (s2 & t2 & Hrun & Hp2 & Hw2).
  rewrite (run_eq _ _ Hrun). cbn.
  split; [reflexivity|]. split; [exact Hp2|]. split; [exact Hw2|].
  intros now upsert.
  apply (run_eq _ _ (save_without_id {| state := s2; trace := [] |} now upsert
                       ltac:(cbn; unfold loaded_id; rewrite Hp2; reflexivity))).
Qed.

Lemma failed_load_disables_save_witness :
  let s1 := state_of (run (fetchProfile (signed_in u1) no_rows) initial_state) in
  let later := [Change Username (lit "alice"); Submit t0 accept_upsert;
                Load (Resolved auth_unreachable) no_rows;
                Change Bio (lit "hello"); Submit t1 accept_upsert] in
  profile s1 = None /\
  written (effects_of (run (handle_all later) s1)) = [] /\
  run (updateProfile t1 accept_upsert) (state_of (run (handle_all later) s1))
    = (Normal tt, state_of (run (handle_all later) s1), [PreventDefault]).
Proof.
  intros s1 later.
  destruct (failed_load_disables_save initial_state (signed_in u1) no_rows
              eq_refl eq_refl) as (Hp1 & Hlater).
  destruct (Hlater later eq_refl) as (_ & _ & Hw & Hsave).
  split; [exact Hp1|]. split; [exact Hw | apply Hsave].
Defined.

(** * Further properties of the page *)

(** ** Helper facts on single handlers *)

Lemma change_run (w : World) f v :
  onChange f v w =
    (Normal tt, {| state := edited f v (state w); trace := trace w |}).
Proof. reflexivity. Qed.

Lemma loaded_id_some (s : State) p :
  profile s = Some p -> Js.truthy (id p) = true -> loaded_id s = Some (id p).
Proof. unfold loaded_id. intros -> ->. reflexivity. Qed.

(** The four ways a save can go. *)
Lemma save_outcomes (w : World) now upsert :
  (loaded_id (state w) = None /\
   updateProfile now upsert w =
     (Normal tt, {| state := state w; trace := trace w ++ [PreventDefault] |}))
  \/
  exists p,
    profile (state w) = Some p /\ Js.truthy (id p) = true /\
    ((1 <= username_length p <= 2 /\
      updateProfile now upsert w =
        (Normal tt,
         {| state := after_save (state w) (Some msg_too_short) None;
            trace := trace w ++ [PreventDefault] |}))
     \/
     ((username_length p = 0 \/ 3 <= username_length p) /\
      upsert (upsert_record p now) <> Resolved {| upsert_error := None |} /\
      exists text,
        updateProfile now upsert w =
          (Normal tt,
           {| state := after_save (state w) (Some text) None;
              trace := trace w ++ [PreventDefault; Upsert (upsert_record p now)] |}))
     \/
     ((username_length p = 0 \/ 3 <= username_length p) /\
      upsert (upsert_record p now) = Resolved {| upsert_error := None |} /\
      updateProfile now upsert w =
        (Normal tt,
         {| state := after_save (state w) None (Some msg_updated);
            trace := trace w ++ [PreventDefault; Upsert (upsert_record p now);
                                 RouterRefresh] |}))).
Proof.
  destruct (loaded_id (state w)) as [i|] eqn:Hid.
  2:{ left. split; [reflexivity|]. apply save_without_id. exact Hid. }
  right. unfold loaded_id in Hid.
  destruct (profile (state w)) as [p|] eqn:Hp; [|discriminate].
  destruct (Js.truthy (id p)) eqn:Ht; [|discriminate].
  exists p. split; [reflexivity|]. split; [exact Ht|].
  assert (Hcase : 1 <= username_length p <= 2 \/
                  (username_length p = 0 \/ 3 <= username_length p)) by lia.
  destruct Hcase as [Hshort | Hok].
  - left. split; [exact Hshort|].
    apply (save_too_short w now upsert Hp Ht Hshort).
  - right.
    destruct (upsert (upsert_record p now)) as [[[e|]]|reason] eqn:Hup.
    + left. split; [exact Hok|]. split; [discriminate|].
      destruct (list_eq_dec N.eq_dec (code e) (lit "23505")) as [Hc|Hc].
      * exists msg_taken. apply (save_taken w now upsert Hp Ht Hok Hup Hc).
      * eexists. apply (save_refused w now upsert Hp Ht Hok Hup Hc).
    + right. split; [exact Hok|]. split; [reflexivity|].
      apply (save_accepted w now upsert Hp Ht Hok Hup).
    + left. split; [exact Hok|]. split; [discriminate|].
      eexists. apply (save_rejected w now upsert Hp Ht Hok Hup).
Qed.

(** What every save has in common. *)
Lemma save_summary (w : World) now upsert :
  exists s' t,
    updateProfile now upsert w =
      (Normal tt, {| state := s'; trace := trace w ++ PreventDefault :: t |}) /\
    profile s' = profile (state w) /\
    isLoading s' = isLoading (state w) /\
    (isSaving (state w) = false -> isSaving s' = false) /\
    (written t = [] \/
     exists p, profile (state w) = Some p /\ Js.truthy (id p) = true /\
               written t = [upsert_record p now]).
Proof.
  destruct (save_outcomes w now upsert)
    as [[_ Hrun] | (p & Hp & Ht & [[_ Hrun] | [(_ & _ & text & Hrun) | (_ & _ & Hrun)]])].
  - exists (state w), []. rewrite Hrun. repeat split; auto.
  - eexists _, []. rewrite Hrun. repeat split; auto.
  - eexists _, [Upsert (upsert_record p now)]. rewrite Hrun.
    repeat split; auto. right. exists p. auto.
  - eexists _, [Upsert (upsert_record p now); RouterRefresh]. rewrite Hrun.
    repeat split; auto. right. exists p. auto.
Qed.

(** ** More on [updateProfile] *)

(** X1.  A save never throws and never touches the profile or the
    loading flag, whether it returns early, fails or succeeds: the four
    inputs show after the save what they showed before it. *)
Theorem save_keeps_the_form (s : State) now upsert :
  let r := run (updateProfile now upsert) s in
  completion_of r = Normal tt /\
  profile (state_of r) = profile s /\
  isLoading (state_of r) = isLoading s /\
  forall f, input_value f (state_of r) = input_value f s.
Proof.
  intros r. subst r.
  destruct (save_summary {| state := s; trace := [] |} now upsert)
    as (s' & t & Hrun & Hp & Hl & _).
  rewrite (run_eq _ _ Hrun). cbn in *.
  split; [reflexivity|]. split; [exact Hp|]. split; [exact Hl|].
  intros f. unfold input_value. rewrite Hp. reflexivity.
Qed.

(** X2.  [router.refresh()] is called by a save only as the last call
    of a save whose upsert was accepted: then the calls are exactly
    [e.preventDefault()], the upsert of the form's record and the
    refresh, the error message is null and the success message is
    set. *)
Theorem refresh_only_after_accepted_upsert (s : State) now upsert :
  let r := run (updateProfile now upsert) s in
  In RouterRefresh (effects_of r) ->
  exists p,
    profile s = Some p /\
    upsert (upsert_record p now) = Resolved {| upsert_error := None |} /\
    effects_of r = [PreventDefault; Upsert (upsert_record p now); RouterRefresh] /\
    error (state_of r) = None /\
    successMessage (state_of r) = Some (lit "Profile updated successfully").
Proof.
  intros r. subst r.
  destruct (save_outcomes {| state := s; trace := [] |} now upsert)
    as [[_ Hrun] | (p & Hp & Ht & [[_ Hrun] | [(_ & _ & text & Hrun) | (_ & Hup & Hrun)]])];
    rewrite (run_eq _ _ Hrun); cbn; intros Hin.
  - destruct Hin as [H|[]]. discriminate.
  - destruct Hin as [H|[]]. discriminate.
  - destruct Hin as [H|[H|[]]]; discriminate.
  - exists p. repeat split; assumption.
Qed.

Lemma refresh_only_after_accepted_upsert_witness :
  let r := run (updateProfile t0 accept_upsert) (ready (named u1 (lit "alice"))) in
  In RouterRefresh (effects_of r) /\
  exists p,
    profile (ready (named u1 (lit "alice"))) = Some p /\
    effects_of r = [PreventDefault; Upsert (upsert_record p t0); RouterRefresh].
Proof.
  intros r.
  assert (Hin : In RouterRefresh (effects_of r)).
  { vm_compute. right. right. left. reflexivity. }
  split; [exact Hin|].
  destruct (refresh_only_after_accepted_upsert
              (ready (named u1 (lit "alice"))) t0 accept_upsert Hin)
    as (p & Hp & _ & Heff & _).
  exists p. split; assumption.
Defined.

(** X3.  When the upsert of a save is rejected (the awaited call
    throws), the rejection is caught: the error message is the reason's
    message when the reason is an [Error] instance and
    "Failed to update profile" otherwise, whatever code the reason
    carries; the success message is unset and no refresh is asked
    for. *)
Theorem rejected_upsert_is_caught (s : State) p now upsert reason :
  profile s = Some p -> Js.truthy (id p) = true ->
  username_length p = 0 \/ 3 <= username_length p ->
  upsert (upsert_record p now) = Rejected reason ->
  let r := run (updateProfile now upsert) s in
  completion_of r = Normal tt /\
  error (state_of r) =
    Some (if instanceofError reason then message reason
          else lit "Failed to update profile") /\
  successMessage (state_of r) = None /\
  isSaving (state_of r) = false /\
  effects_of r = [PreventDefault; Upsert (upsert_record p now)].
Proof.
  intros Hp Hid Hlen Hup r. subst r.
  rewrite (run_eq _ _ (save_rejected {| state := s; trace := [] |} now upsert
                         Hp Hid Hlen Hup)).
  repeat split.
Qed.

Lemma rejected_upsert_is_caught_witness :
  let r := run (updateProfile t0 (reject_upsert rejected_23505))
               (ready (named u1 (lit "alice"))) in
  error (state_of r) = Some (message rejected_23505) /\
  successMessage (state_of r) = None.
Proof.
  intros r.
  assert (Hlen : username_length (named u1 (lit "alice")) = 0 \/
                 3 <= username_length (named u1 (lit "alice")))
    by (right; vm_compute; lia).
  destruct (rejected_upsert_is_caught (ready (named u1 (lit "alice"))) t0
              (reject_upsert rejected_23505) (p := named u1 (lit "alice"))
              (reason := rejected_23505) eq_refl eq_refl Hlen eq_refl)
    as (_ & He & Hs & _).
  split; [exact He | exact Hs].
Defined.

(** X4.  A save sends at most one upsert, and what it sends is the
    record of the profile on the form at the clock's reading: its id
    is truthy and its username is absent, empty or at least three code
    units long. *)
Theorem save_writes_only_the_form (s : State) now upsert :
  let r := run (updateProfile now upsert) s in
  written (effects_of r) = [] \/
  exists p,
    profile s = Some p /\
    written (effects_of r) = [upsert_record p now] /\
    Js.truthy (id p) = true /\
    (username_length p = 0 \/ 3 <= username_length p).
Proof.
  intros r. subst r.
  destruct (save_outcomes {| state := s; trace := [] |} now upsert)
    as [[_ Hrun] | (p & Hp & Ht & [[_ Hrun] | [(Hok & _ & text & Hrun) | (Hok & _ & Hrun)]])];
    rewrite (run_eq _ _ Hrun); cbn.
  - left. reflexivity.
  - left. reflexivity.
  - right. exists p. auto.
  - right. exists p. auto.
Qed.

(** X5.  After a save attempt on a page that is not loading, the form
    is shown with the submit button enabled and labelled
    "Save Changes"; the two banners are never both shown; and neither
    is shown only when the attempt failed with the empty string as its
    message. *)
Theorem banners_after_attempt (s : State) now upsert :
  loaded_id s <> None ->
  isLoading s = false ->
  let r := run (updateProfile now upsert) s in
  exists v,
    render (state_of r) = Form v /\
    submit_disabled v = false /\
    submit_label v = lit "Save Changes" /\
    (error_banner v = None \/ success_banner v = None) /\
    (error_banner v = None -> success_banner v = None ->
       error (state_of r) = Some (lit "")).
Proof.
  intros Hid Hl r. subst r.
  destruct (save_outcomes {| state := s; trace := [] |} now upsert)
    as [[Hno _] | (p & Hp & Ht & [[_ Hrun] | [(_ & _ & text & Hrun) | (_ & _ & Hrun)]])];
    [contradiction | | | ];
    rewrite (run_eq _ _ Hrun); unfold render; cbn; rewrite Hl;
    eexists; (split; [reflexivity|]); cbn;
    (split; [reflexivity|]); (split; [reflexivity|]).
  - split; [right; reflexivity|]. vm_compute. discriminate.
  - split; [right; reflexivity|].
    destruct text as [|c text]; cbn; [reflexivity | discriminate].
  - split; [left; reflexivity|]. vm_compute. discriminate.
Qed.

Lemma banners_after_attempt_witness :
  let r := run (updateProfile t0 (refuse_upsert silent_error))
               (ready (named u1 (lit "alice"))) in
  exists v,
    render (state_of r) = Form v /\
    error_banner v = None /\ success_banner v = None /\
    error (state_of r) = Some (lit "").
Proof.
  intros r.
  assert (Hid : loaded_id (ready (named u1 (lit "alice"))) <> None)
    by (vm_compute; discriminate).
  destruct (banners_after_attempt (ready (named u1 (lit "alice"))) t0
              (refuse_upsert silent_error) Hid eq_refl)
    as (v & Hv & _ & _ & _ & Hnone).
  exists v. split; [exact Hv|].
  assert (He : error_banner v = None).
  { vm_compute in Hv. injection Hv as <-. reflexivity. }
  assert (Hs : success_banner v = None).
  { vm_compute in Hv. injection Hv as <-. reflexivity. }
  split; [exact He|]. split; [exact Hs|]. exact (Hnone He Hs).
Defined.

(** ** More on [fetchProfile] *)

(** The three ways a load can go. *)
Lemma load_outcomes (w : World) getUser single :
  (load_throws getUser single = true /\
   exists t,
     fetchProfile getUser single w =
       (Normal tt, {| state := after_failed_load (state w);
                      trace := trace w ++ t |}) /\
     written t = [] /\
     (filter is_network t = [AuthGetUser] \/
      exists answer user,
        getUser = Resolved answer /\ data_user answer = Some user /\
        filter is_network t = [AuthGetUser; SelectSingle (user_id user)]))
  \/
  (exists answer,
     getUser = Resolved answer /\ data_user answer = None /\
     fetchProfile getUser single w =
       (Normal tt, {| state := after_redirect (state w);
                      trace := trace w ++ [AuthGetUser; RouterPush (lit "/auth")] |}))
  \/
  (load_succeeds getUser single = true /\
   exists answer user q,
     getUser = Resolved answer /\ data_user answer = Some user /\
     single (user_id user) = Resolved q /\ select_error q = None /\
     fetchProfile getUser single w =
       (Normal tt,
        {| state := after_load (state w)
                      match data q with
                      | Some row => row
                      | None => fresh_profile (user_id user)
                      end;
           trace := trace w ++ [AuthGetUser; SelectSingle (user_id user)] |})).
Proof.
  unfold load_throws, load_succeeds.
  destruct getUser as [r|reason].
  - destruct (data_user r) as [user|] eqn:Hr.
    + destruct (single (user_id user)) as [q|reason] eqn:Hq.
      * destruct (select_error q) as [e|] eqn:He.
        -- left. split; [reflexivity|]. eexists.
           split; [apply (load_select_error w single r Hr Hq He)|].
           split; [reflexivity|]. right. exists r, user. auto.
        -- right. right. split; [reflexivity|]. exists r, user, q.
           repeat split; auto. apply (load_answered w single r Hr Hq He).
      * left. split; [reflexivity|]. eexists.
        split; [apply (load_rejected_select w single r Hr Hq)|].
        split; [reflexivity|]. right. exists r, user. auto.
    + right. left. exists r. repeat split; auto.
      apply (load_no_user w single r Hr).
  - left. split; [reflexivity|]. eexists.
    split; [apply load_rejected_user|]. split; [reflexivity|]. left. reflexivity.
Qed.

(** X6.  A load calls the identity service first and then, only when
    a user came back, queries the profile of exactly that user's id;
    it makes no other network call and never writes. *)
Theorem load_network_calls (s : State) getUser single :
  let r := run (fetchProfile getUser single) s in
  written (effects_of r) = [] /\
  (filter is_network (effects_of r) = [AuthGetUser] \/
   exists answer user,
     getUser = Resolved answer /\ data_user answer = Some user /\
     filter is_network (effects_of r) = [AuthGetUser; SelectSingle (user_id user)]).
Proof.
  intros r. subst r.
  destruct (load_outcomes {| state := s; trace := [] |} getUser single)
    as [(_ & t & Hrun & Hw & Hnet)
       | [(answer & Hg & Hu & Hrun)
         | (_ & answer & user & q & Hg & Hu & Hq & He & Hrun)]];
    rewrite (run_eq _ _ Hrun); cbn.
  - split; assumption.
  - split; [reflexivity|]. left. reflexivity.
  - split; [reflexivity|]. right. exists answer, user. auto.
Qed.

(** X7.  A load that succeeds replaces the profile and clears the
    loading flag, and nothing else: the error message, the success
    message and the saving flag are what they were.  So a load that
    succeeds after one that failed leaves the page with the profile
    loaded and the message "Failed to load profile" still set. *)
Theorem load_never_clears_the_error (s : State) getUser single :
  load_succeeds getUser single = true ->
  let r := run (fetchProfile getUser single) s in
  (exists p, profile (state_of r) = Some p) /\
  isLoading (state_of r) = false /\
  error (state_of r) = error s /\
  successMessage (state_of r) = successMessage s /\
  isSaving (state_of r) = isSaving s.
Proof.
  intros Hok r. subst r.
  destruct (load_outcomes {| state := s; trace := [] |} getUser single)
    as [(Hthrows & _)
       | [(answer & Hg & Hu & _)
         | (_ & answer & user & q & Hg & Hu & Hq & He & Hrun)]].
  - rewrite (load_throws_not_succeeds _ _ Hthrows) in Hok. discriminate.
  - subst getUser. unfold load_succeeds in Hok. rewrite Hu in Hok. discriminate.
  - rewrite (run_eq _ _ Hrun). cbn. repeat split. eexists. reflexivity.
Qed.

Lemma load_never_clears_the_error_witness :
  let failed := state_of (run (fetchProfile (signed_in u1) no_rows) initial_state) in
  let r := run (fetchProfile (signed_in u1) (select_single one_row)) failed in
  profile (state_of r) = Some alice_row /\
  error (state_of r) = Some (lit "Failed to load profile").
Proof.
  intros failed r.
  destruct (load_never_clears_the_error failed (signed_in u1)
              (select_single one_row) eq_refl)
    as (_ & _ & He & _).
  split; [reflexivity|]. fold r in He. rewrite He. reflexivity.
Defined.

(** X8.  [.eq('id', i)] keeps rows of id [i] only, so when the table
    holds exactly one row for the signed-in user the load puts that row
    in the profile, and the id of the loaded profile is the id of the
    session. *)
Theorem load_existing_row (s : State) (table : Table) i row :
  eq_id i table = [row] ->
  let r := run (fetchProfile (signed_in i) (select_single table)) s in
  profile (state_of r) = Some row /\
  id row = i /\
  loaded_id (state_of r) = (if Js.truthy i then Some i else None) /\
  error (state_of r) = error s /\
  effects_of r = [AuthGetUser; SelectSingle i].
Proof.
  intros Hrows r. subst r.
  assert (Hid : id row = i).
  { assert (Hin : In row (eq_id i table)) by (rewrite Hrows; left; reflexivity).
    unfold eq_id in Hin. apply filter_In in Hin. destruct Hin as [_ Heq].
    apply js_eqb_eq in Heq. exact Heq. }
  assert (Hq : select_single table i = Resolved (single_row [row])).
  { unfold select_single. rewrite Hrows. reflexivity. }
  unfold signed_in.
  rewrite (run_eq _ _ (load_answered {| state := s; trace := [] |}
                         (select_single table)
                         {| data_user := Some {| user_id := i |};
                            auth_error := None |}
                         (user := {| user_id := i |}) eq_refl Hq eq_refl)).
  cbn. unfold loaded_id. cbn. rewrite Hid. repeat split.
Qed.

Lemma load_existing_row_witness :
  let r := run (fetchProfile (signed_in u1) (select_single one_row)) initial_state in
  eq_id u1 one_row = [alice_row] /\
  profile (state_of r) = Some alice_row /\
  loaded_id (state_of r) = Some u1.
Proof.
  intros r. split; [reflexivity|].
  destruct (load_existing_row initial_state one_row u1 (row := alice_row) eq_refl)
    as (Hp & _ & Hl & _).
  split; [exact Hp | exact Hl].
Defined.

(** X9.  What the page shows after the first load brought a row back:
    the form, no banner, each input with the row's field or the empty
    string when the field is null or empty, and the submit button
    enabled. *)
Theorem first_load_shows_the_row getUser single answer user q row :
  getUser = Resolved answer -> data_user answer = Some user ->
  single (user_id user) = Resolved q ->
  select_error q = None -> data q = Some row ->
  render (state_of (run (fetchProfile getUser single) initial_state)) =
    Form {| error_banner := None;
            success_banner := None;
            full_name_value := or_empty (full_name row);
            username_value := or_empty (username row);
            website_value := or_empty (website row);
            bio_value := or_empty (bio row);
            submit_disabled := false;
            submit_label := lit "Save Changes" |}.
Proof.
  intros -> Hu Hq He Hd.
  rewrite (run_eq _ _ (load_answered {| state := initial_state; trace := [] |}
                         single answer Hu Hq He)).
  cbn. rewrite Hd. reflexivity.
Qed.

Lemma first_load_shows_the_row_witness :
  render (state_of (run (fetchProfile (signed_in u1) (select_single one_row))
                        initial_state)) =
    Form {| error_banner := None;
            success_banner := None;
            full_name_value := lit "Alice";
            username_value := lit "alice";
            website_value := lit "";
            bio_value := lit "";
            submit_disabled := false;
            submit_label := lit "Save Changes" |}.
Proof.
  apply (@first_load_shows_the_row (signed_in u1) (select_single one_row)
           {| data_user := Some {| user_id := u1 |}; auth_error := None |}
           {| user_id := u1 |}
           {| data := Some alice_row; select_error := None |}
           alice_row eq_refl eq_refl eq_refl eq_refl eq_refl).
Defined.

(** ** The [onChange] handlers *)

Lemma with_field_id f v p : id (with_field f v p) = id p.
Proof. destruct f; reflexivity. Qed.

Lemma field_of_with_field f v p : field_of f (with_field f v p) = Some v.
Proof. destruct f; reflexivity. Qed.

Lemma field_of_with_other f g v p :
  g <> f -> field_of g (with_field f v p) = field_of g p.
Proof. destruct f, g; intros H; try reflexivity; contradiction. Qed.

Lemma or_empty_some (v : jsstring) : or_empty (Some v) = v.
Proof. destruct v; reflexivity. Qed.

(** X10.  With a profile on the form, an edit of one field makes that
    field's input show exactly what was typed (the empty string
    included) and leaves the other three inputs, the id, both
    messages and both flags as they were; it calls nothing outside the
    component. *)
Theorem edit_shows_in_its_input (s : State) p f v :
  profile s = Some p ->
  let r := run (onChange f v) s in
  completion_of r = Normal tt /\
  effects_of r = [] /\
  input_value f (state_of r) = v /\
  (forall g, g <> f -> input_value g (state_of r) = input_value g s) /\
  loaded_id (state_of r) = loaded_id s /\
  error (state_of r) = error s /\
  successMessage (state_of r) = successMessage s /\
  isSaving (state_of r) = isSaving s /\
  isLoading (state_of r) = isLoading s.
Proof.
  intros Hp r. subst r.
  rewrite (run_eq _ _ (change_run {| state := s; trace := [] |} f v)).
  cbn. unfold input_value, loaded_id. cbn. rewrite Hp.
  split; [reflexivity|]. split; [reflexivity|].
  split; [rewrite field_of_with_field; apply or_empty_some|].
  split; [intros g Hg; rewrite (field_of_with_other v p Hg); reflexivity|].
  split; [rewrite with_field_id; reflexivity|].
  repeat split.
Qed.

Lemma edit_shows_in_its_input_witness :
  let r := run (onChange Username (lit "")) (ready alice_row) in
  input_value Username (state_of r) = lit "" /\
  input_value FullName (state_of r) = lit "Alice".
Proof.
  intros r.
  destruct (edit_shows_in_its_input (ready alice_row) Username (lit "")
              (p := alice_row) eq_refl)
    as (_ & _ & Hv & Hothers & _).
  split; [exact Hv|].
  fold r in Hothers. rewrite (Hothers FullName); [reflexivity | discriminate].
Defined.

(** X11.  With no profile on the form, an edit is dropped: the state
    is exactly what it was, nothing is called, and the input goes on
    showing the empty string whatever was typed. *)
Theorem edit_without_profile_is_dropped (s : State) f v :
  profile s = None ->
  run (onChange f v) s = (Normal tt, s, []) /\
  input_value f s = lit "".
Proof.
  intros Hp.
  split.
  - rewrite (run_eq _ _ (change_run {| state := s; trace := [] |} f v)).
    cbn. unfold edited. rewrite Hp. rewrite <- Hp. rewrite state_eta. reflexivity.
  - unfold input_value. rewrite Hp. reflexivity.
Qed.

Lemma edit_without_profile_is_dropped_witness :
  run (onChange Username (lit "alice")) initial_state
    = (Normal tt, initial_state, []) /\
  input_value Username initial_state = lit "".
Proof.
  apply (edit_without_profile_is_dropped initial_state Username (lit "alice")).
  reflexivity.
Defined.

(** X12.  Edits compose field by field: a second edit of the same
    field overwrites the first, and edits of two different fields give
    the same state in either order. *)
Theorem edits_compose (s : State) f g v u :
  state_of (run (handle_all [Change f v; Change f u]) s)
    = state_of (run (handle_all [Change f u]) s) /\
  (f <> g ->
   state_of (run (handle_all [Change f v; Change g u]) s)
     = state_of (run (handle_all [Change g u; Change f v]) s)).
Proof.
  unfold run, handle_all, handler, bind. rewrite !change_run. cbn.
  unfold edited. cbn.
  split.
  - destruct (profile s) as [p|]; [|reflexivity].
    destruct f; reflexivity.
  - intros Hfg. destruct (profile s) as [p|]; [|reflexivity].
    destruct f, g; try reflexivity; contradiction.
Qed.

Lemma edits_compose_witness :
  state_of (run (handle_all [Change Username (lit "al"); Change Bio (lit "hi")])
                (ready alice_row))
    = state_of (run (handle_all [Change Bio (lit "hi"); Change Username (lit "al")])
                    (ready alice_row)).
Proof.
  apply (proj2 (edits_compose (ready alice_row) Username Bio (lit "al") (lit "hi"))).
  discriminate.
Defined.

(** ** Sequences of events *)

Lemma load_succeeds_resolved single answer user q :
  data_user answer = Some user ->
  single (user_id user) = Resolved q ->
  select_error q = None ->
  load_succeeds (Resolved answer) single = true.
Proof.
  intros Hu Hq He. unfold load_succeeds. rewrite Hu, Hq, He. reflexivity.
Qed.

(** One handler: it completes, keeps a false flag false, and writes at
    most once, and only on a submit. *)
Lemma handler_summary (e : Event) (w : World) :
  exists s' t,
    handler e w = (Normal tt, {| state := s'; trace := trace w ++ t |}) /\
    (isSaving (state w) = false -> isSaving s' = false) /\
    (isLoading (state w) = false -> isLoading s' = false) /\
    List.length (written t) <= (if is_submit e then 1 else 0).
Proof.
  destruct e as [getUser single | f v | now upsert]; unfold handler.
  - destruct (load_outcomes w getUser single)
      as [(_ & t & Hrun & Hw & _)
         | [(answer & _ & _ & Hrun)
           | (_ & answer & user & q & _ & _ & _ & _ & Hrun)]].
    + eexists _, t. rewrite Hrun. rewrite Hw. cbn. auto.
    + eexists _, _. rewrite Hrun. cbn. auto.
    + eexists _, _. rewrite Hrun. cbn. auto.
  - exists (edited f v (state w)), []. rewrite change_run, app_nil_r. cbn. auto.
  - destruct (save_summary w now upsert) as (s' & t & Hrun & _ & Hl & Hs & Hw).
    exists s', (PreventDefault :: t). rewrite Hrun. cbn.
    split; [reflexivity|]. split; [exact Hs|]. split; [congruence|].
    destruct Hw as [-> | (p & _ & _ & ->)]; cbn; lia.
Qed.

(** X13.  Whatever events reach the component, in whatever order and
    with whatever answers from the services, no handler throws; a
    saving flag and a loading flag that are false stay false, so once
    the form is shown the loading view never comes back and the submit
    button is never left disabled; and no more upserts are sent than
    there were submits. *)
Theorem handlers_never_throw (es : list Event) (s : State) :
  let r := run (handle_all es) s in
  completion_of r = Normal tt /\
  (isSaving s = false -> isSaving (state_of r) = false) /\
  (isLoading s = false -> isLoading (state_of r) = false /\
                          render (state_of r) <> LoadingView) /\
  List.length (written (effects_of r)) <= List.length (filter is_submit es).
Proof.
  intros r. subst r.
  assert (H : forall w : World, exists s' t,
             handle_all es w = (Normal tt, {| state := s'; trace := trace w ++ t |}) /\
             (isSaving (state w) = false -> isSaving s' = false) /\
             (isLoading (state w) = false -> isLoading s' = false) /\
             List.length (written t) <= List.length (filter is_submit es)).
  { induction es as [|e es IH]; intros w.
    - exists (state w), []. cbn. unfold ret. rewrite world_eta. auto.
    - destruct (handler_summary e w) as (s1 & t1 & Hrun1 & Hs1 & Hl1 & Hw1).
      destruct (IH {| state := s1; trace := trace w ++ t1 |})
        as (s2 & t2 & Hrun2 & Hs2 & Hl2 & Hw2).
      exists s2, (t1 ++ t2). cbn [handle_all]. unfold bind.
      rewrite Hrun1, Hrun2. cbn [state trace] in *.
      rewrite app_assoc, written_app, length_app.
      split; [reflexivity|]. split; [auto|]. split; [auto|].
      cbn [filter]. destruct (is_submit e); cbn [List.length]; lia. }
  destruct (H {| state := s; trace := [] |}) as (s' & t & Hrun & Hs & Hl & Hw).
  rewrite (run_eq _ _ Hrun). cbn in *.
  split; [reflexivity|]. split; [exact Hs|]. split; [|exact Hw].
  intros Hload. split; [auto|]. unfold render. rewrite (Hl Hload). discriminate.
Qed.

Lemma handlers_never_throw_witness :
  let es := [Submit t0 (reject_upsert rejected_23505);
             Load (Rejected permission_denied) no_rows;
             Change Bio (lit "hi");
             Submit t1 (refuse_upsert unique_violation)] in
  let r := run (handle_all es) (ready alice_row) in
  completion_of r = Normal tt /\
  isSaving (state_of r) = false /\
  render (state_of r) <> LoadingView.
Proof.
  intros es r.
  destruct (handlers_never_throw es (ready alice_row)) as (Hc & Hs & Hl & _).
  split; [exact Hc|]. split; [apply Hs; reflexivity|].
  apply Hl. reflexivity.
Defined.

(** One handler other than a load keeps the id of the profile, and
    what it writes carries that id. *)
Lemma handler_keeps_id (e : Event) (w : World) p :
  no_load e = true ->
  profile (state w) = Some p ->
  exists s' t p',
    handler e w = (Normal tt, {| state := s'; trace := trace w ++ t |}) /\
    profile s' = Some p' /\ id p' = id p /\
    Forall (fun record => row_id record = id p) (written t).
Proof.
  intros He Hp. destruct e as [getUser single | f v | now upsert];
    [discriminate | |]; unfold handler.
  - exists (edited f v (state w)), [], (with_field f v p).
    rewrite change_run, app_nil_r. unfold edited. cbn. rewrite Hp.
    split; [reflexivity|]. split; [reflexivity|].
    split; [apply with_field_id | constructor].
  - destruct (save_summary w now upsert) as (s' & t & Hrun & Hp' & _ & _ & Hw).
    exists s', (PreventDefault :: t), p. rewrite Hrun. cbn.
    split; [reflexivity|]. split; [congruence|]. split; [reflexivity|].
    destruct Hw as [-> | (p0 & Hp0 & _ & ->)]; [constructor|].
    assert (p0 = p) by congruence. subst p0.
    constructor; [reflexivity | constructor].
Qed.

(** X14.  Between two loads the id on the form is fixed: after any
    sequence of edits and saves there is still a profile with the same
    id, and every record those saves sent carries that id. *)
Theorem edits_and_saves_keep_the_id (es : list Event) (s : State) p :
  forallb no_load es = true ->
  profile s = Some p ->
  let r := run (handle_all es) s in
  (exists p', profile (state_of r) = Some p' /\ id p' = id p) /\
  Forall (fun record => row_id record = id p) (written (effects_of r)).
Proof.
  intros Hes Hp r. subst r.
  assert (H : forall (w : World) q,
             profile (state w) = Some q -> id q = id p ->
             exists s' t p',
               handle_all es w = (Normal tt, {| state := s'; trace := trace w ++ t |}) /\
               profile s' = Some p' /\ id p' = id p /\
               Forall (fun record => row_id record = id p) (written t)).
  { clear s Hp. induction es as [|e es IH]; intros w q Hq Hid; cbn in Hes.
    - exists (state w), [], q. cbn. unfold ret. rewrite world_eta.
      repeat split; auto.
    - apply andb_true_iff in Hes. destruct Hes as [He Hes].
      destruct (handler_keeps_id e w He Hq) as (s1 & t1 & p1 & Hrun1 & Hp1 & Hid1 & Hw1).
      destruct (IH Hes {| state := s1; trace := trace w ++ t1 |} p1 Hp1
                   ltac:(congruence))
        as (s2 & t2 & p2 & Hrun2 & Hp2 & Hid2 & Hw2).
      exists s2, (t1 ++ t2), p2. cbn [handle_all]. unfold bind.
      rewrite Hrun1, Hrun2. cbn [state trace].
      rewrite app_assoc, written_app.
      split; [reflexivity|]. split; [exact Hp2|]. split; [exact Hid2|].
      apply Forall_app. split; [|exact Hw2].
      rewrite <- Hid. exact Hw1. }
  destruct (H {| state := s; trace := [] |} p Hp eq_refl)
    as (s' & t & p' & Hrun & Hp' & Hid' & Hw).
  rewrite (run_eq _ _ Hrun). cbn.
  split; [exists p'; auto | exact Hw].
Qed.

Lemma edits_and_saves_keep_the_id_witness :
  let es := [Change Username (lit "alice2"); Submit t0 accept_upsert;
             Change FullName (lit "A."); Submit t1 accept_upsert] in
  let r := run (handle_all es) (ready alice_row) in
  List.length (written (effects_of r)) = 2 /\
  Forall (fun record => row_id record = u1) (written (effects_of r)).
Proof.
  intros es r. split; [reflexivity|].
  apply (edits_and_saves_keep_the_id es (ready alice_row) (p := alice_row)
           eq_refl eq_refl).
Defined.

(** X15.  A load that does not succeed (it failed, or it redirected)
    leaves the profile as it was: the four inputs keep showing what
    they showed, the success message and the saving flag are
    untouched, and nothing is written. *)
Theorem unsuccessful_load_keeps_the_form (s : State) getUser single :
  load_succeeds getUser single = false ->
  let r := run (fetchProfile getUser single) s in
  profile (state_of r) = profile s /\
  (forall f, input_value f (state_of r) = input_value f s) /\
  successMessage (state_of r) = successMessage s /\
  isSaving (state_of r) = isSaving s /\
  written (effects_of r) = [].
Proof.
  intros Hno r. subst r.
  destruct (load_outcomes {| state := s; trace := [] |} getUser single)
    as [(_ & t & Hrun & Hw & _)
       | [(answer & _ & _ & Hrun)
         | (Hok & _)]];
    [| | congruence];
    rewrite (run_eq _ _ Hrun); cbn; repeat split; auto.
Qed.

Lemma unsuccessful_load_keeps_the_form_witness :
  let r := run (fetchProfile (signed_in u1) no_rows) (ready alice_row) in
  profile (state_of r) = Some alice_row /\
  input_value Username (state_of r) = lit "alice".
Proof.
  intros r.
  destruct (unsuccessful_load_keeps_the_form (ready alice_row) (signed_in u1)
              no_rows eq_refl) as (Hp & Hv & _).
  split; [exact Hp|]. fold r in Hv. rewrite Hv. reflexivity.
Defined.

(** A state with no profile, not loading and showing the load failure
    is a fixed point of every handler but a successful load. *)
Lemma handler_keeps_failed (e : Event) (w : World) :
  no_successful_load e = true ->
  profile (state w) = None ->
  isLoading (state w) = false ->
  error (state w) = Some msg_load_failed ->
  exists t,
    handler e w = (Normal tt, {| state := state w; trace := trace w ++ t |}).
Proof.
  intros He Hp Hl Herr.
  assert (Hfailed : after_failed_load (state w) = state w).
  { unfold after_failed_load. rewrite <- Hl, <- Herr. apply state_eta. }
  assert (Hredirect : after_redirect (state w) = state w).
  { unfold after_redirect. rewrite <- Hl. apply state_eta. }
  destruct e as [getUser single | f v | now upsert]; cbn in He; unfold handler.
  - apply negb_true_iff in He.
    destruct (load_outcomes w getUser single)
      as [(_ & t & Hrun & _)
         | [(answer & _ & _ & Hrun)
           | (Hok & _)]]; [| | congruence].
    + exists t. rewrite Hrun, Hfailed. reflexivity.
    + eexists. rewrite Hrun, Hredirect. reflexivity.
  - exists []. rewrite change_run, app_nil_r. unfold edited. rewrite Hp.
    rewrite <- Hp. rewrite state_eta. reflexivity.
  - exists [PreventDefault]. apply save_without_id.
    unfold loaded_id. rewrite Hp. reflexivity.
Qed.

(** X16.  When the first load of a page fails, the page shows the
    form with the banner "Failed to load profile", four empty inputs
    and an enabled submit button, and it stays exactly so: until a
    load succeeds, no edit, save or further load changes the state, so
    what is typed never shows. *)
Theorem failed_first_load_freezes_the_form getUser single (es : list Event) :
  load_throws getUser single = true ->
  forallb no_successful_load es = true ->
  let s1 := state_of (run (fetchProfile getUser single) initial_state) in
  state_of (run (handle_all es) s1) = s1 /\
  render s1 =
    Form {| error_banner := Some (lit "Failed to load profile");
            success_banner := None;
            full_name_value := lit "";
            username_value := lit "";
            website_value := lit "";
            bio_value := lit "";
            submit_disabled := false;
            submit_label := lit "Save Changes" |}.
Proof.
  intros Hfail Hes s1.
  assert (Hs1 : s1 = after_failed_load initial_state).
  { subst s1.
    destruct (load_outcomes {| state := initial_state; trace := [] |} getUser single)
      as [(_ & t & Hrun & _)
         | [(answer & Hg & Hu & _)
           | (Hok & _)]].
    - rewrite (run_eq _ _ Hrun). reflexivity.
    - subst getUser. unfold load_throws in Hfail. rewrite Hu in Hfail. discriminate.
    - rewrite (load_throws_not_succeeds _ _ Hfail) in Hok. discriminate. }
  split; [|rewrite Hs1; reflexivity].
  assert (H : forall w : World,
             state w = s1 ->
             exists t, handle_all es w =
                         (Normal tt, {| state := s1; trace := trace w ++ t |})).
  { induction es as [|e es IH]; intros w Hw; cbn in Hes.
    - exists []. cbn. unfold ret. rewrite <- Hw, world_eta. reflexivity.
    - apply andb_true_iff in Hes. destruct Hes as [He Hes].
      destruct (handler_keeps_failed e w He) as (t1 & Hrun1);
        try (rewrite Hw, Hs1; reflexivity).
      destruct (IH Hes {| state := state w; trace := trace w ++ t1 |} Hw)
        as (t2 & Hrun2).
      exists (t1 ++ t2). cbn [handle_all]. unfold bind.
      rewrite Hrun1, Hrun2. cbn [state trace]. rewrite app_assoc. reflexivity. }
  destruct (H {| state := s1; trace := [] |} eq_refl) as (t & Hrun).
  rewrite (run_eq _ _ Hrun). reflexivity.
Qed.

Lemma failed_first_load_freezes_the_form_witness :
  let s1 := state_of (run (fetchProfile (signed_in u1) (select_single other_rows))
                          initial_state) in
  let es := [Change Username (lit "alice"); Submit t0 accept_upsert;
             Load (Resolved auth_unreachable) no_rows;
             Change Bio (lit "hello")] in
  state_of (run (handle_all es) s1) = s1 /\
  input_value Username (state_of (run (handle_all es) s1)) = lit "".
Proof.
  intros s1 es.
  destruct (@failed_first_load_freezes_the_form (signed_in u1)
              (select_single other_rows) es eq_refl eq_refl) as (Hfix & _).
  fold s1 in Hfix. split; [exact Hfix|]. rewrite Hfix. reflexivity.
Defined.

(** X17.  Whatever a first save did, changing the username to one
    that is empty or at least three code units long and saving again
    against a database that accepts ends with the error message
    cleared and the success message set, and the last record sent is
    the form's with the new username (the empty string is sent as
    such, not as an absent field). *)
Theorem corrected_username_saves (s : State) p now1 upsert1 v now2 upsert2 :
  profile s = Some p -> Js.truthy (id p) = true ->
  Js.length v = 0 \/ 3 <= Js.length v ->
  upsert2 (upsert_record (with_field Username v p) now2)
    = Resolved {| upsert_error := None |} ->
  let r := run (handle_all [Submit now1 upsert1; Change Username v;
                            Submit now2 upsert2]) s in
  error (state_of r) = None /\
  successMessage (state_of r) = Some (lit "Profile updated successfully") /\
  input_value Username (state_of r) = v /\
  exists earlier,
    written (effects_of r)
      = earlier ++ [upsert_record (with_field Username v p) now2] /\
    row_username (upsert_record (with_field Username v p) now2) = Some v.
Proof.
  intros Hp Hid Hlen Hup r. subst r.
  unfold run, handle_all, handler, bind.
  destruct (save_summary {| state := s; trace := [] |} now1 upsert1)
    as (s1 & t1 & Hrun1 & Hp1 & _).
  rewrite Hrun1, change_run. cbn [state trace] in *.
  assert (Hp2 : profile (edited Username v s1) = Some (with_field Username v p)).
  { unfold edited. cbn. rewrite Hp1, Hp. reflexivity. }
  match goal with
  | |- context [updateProfile now2 upsert2 ?w] =>
      rewrite (save_accepted w now2 upsert2 (p := with_field Username v p)
                 Hp2 Hid Hlen Hup)
  end.
  cbn. unfold input_value. cbn. rewrite Hp1, Hp. cbn.
  split; [reflexivity|]. split; [reflexivity|].
  split; [apply or_empty_some|].
  exists (written t1). split; [|reflexivity].
  rewrite written_app. reflexivity.
Qed.

Lemma corrected_username_saves_witness :
  let r := run (handle_all [Submit t0 accept_upsert; Change Username (lit "abc");
                            Submit t1 accept_upsert])
               (ready (named u1 (lit "ab"))) in
  error (state_of r) = None /\
  written (effects_of r) = [upsert_record (named u1 (lit "abc")) t1].
Proof.
  intros r.
  assert (Hlen : Js.length (lit "abc") = 0 \/ 3 <= Js.length (lit "abc"))
    by (right; vm_compute; lia).
  destruct (corrected_username_saves (ready (named u1 (lit "ab"))) t0 accept_upsert
              (lit "abc") t1 accept_upsert (p := named u1 (lit "ab"))
              eq_refl eq_refl Hlen eq_refl) as (He & _).
  split; [exact He | reflexivity].
Defined.

(** X18.  A save looks at the profile only: two states with the same
    profile make the same calls, whatever their flags and messages (a
    submit that arrives while the saving flag is set is not held
    back), and when the save is an attempt they end with the same
    messages and the saving flag false. *)
Theorem save_depends_on_the_profile_only (s s' : State) now upsert :
  profile s = profile s' ->
  let r := run (updateProfile now upsert) s in
  let r' := run (updateProfile now upsert) s' in
  effects_of r = effects_of r' /\
  (loaded_id s <> None ->
   error (state_of r) = error (state_of r') /\
   successMessage (state_of r) = successMessage (state_of r') /\
   isSaving (state_of r) = false /\ isSaving (state_of r') = false).
Proof.
  intros Hsame r r'. subst r r'.
  assert (Hid' : loaded_id s' = loaded_id s) by (unfold loaded_id; rewrite Hsame; reflexivity).
  destruct (save_outcomes {| state := s; trace := [] |} now upsert)
    as [[Hno Hrun] | (p & Hp & Ht & Hcases)]; cbn [state] in *.
  - rewrite (run_eq _ _ Hrun).
    rewrite (run_eq _ _ (save_without_id {| state := s'; trace := [] |} now upsert
                           ltac:(cbn; congruence))).
    split; [reflexivity | contradiction].
  - assert (Hp' : profile s' = Some p) by congruence.
    assert (Hcase : 1 <= username_length p <= 2 \/
                    (username_length p = 0 \/ 3 <= username_length p)) by lia.
    destruct Hcase as [Hshort | Hok].
    + rewrite (run_eq _ _ (save_too_short {| state := s; trace := [] |} now upsert
                             Hp Ht Hshort)).
      rewrite (run_eq _ _ (save_too_short {| state := s'; trace := [] |} now upsert
                             Hp' Ht Hshort)).
      repeat split.
    + destruct (upsert (upsert_record p now)) as [[[e|]]|reason] eqn:Hup.
      * destruct (list_eq_dec N.eq_dec (code e) (lit "23505")) as [Hc|Hc].
        -- rewrite (run_eq _ _ (save_taken {| state := s; trace := [] |} now upsert
                                  Hp Ht Hok Hup Hc)).
           rewrite (run_eq _ _ (save_taken {| state := s'; trace := [] |} now upsert
                                  Hp' Ht Hok Hup Hc)).
           repeat split.
        -- rewrite (run_eq _ _ (save_refused {| state := s; trace := [] |} now upsert
                                  Hp Ht Hok Hup Hc)).
           rewrite (run_eq _ _ (save_refused {| state := s'; trace := [] |} now upsert
                                  Hp' Ht Hok Hup Hc)).
           repeat split.
      * rewrite (run_eq _ _ (save_accepted {| state := s; trace := [] |} now upsert
                               Hp Ht Hok Hup)).
        rewrite (run_eq _ _ (save_accepted {| state := s'; trace := [] |} now upsert
                               Hp' Ht Hok Hup)).
        repeat split.
      * rewrite (run_eq _ _ (save_rejected {| state := s; trace := [] |} now upsert
                               Hp Ht Hok Hup)).
        rewrite (run_eq _ _ (save_rejected {| state := s'; trace := [] |} now upsert
                               Hp' Ht Hok Hup)).
        repeat split.
Qed.

Lemma save_depends_on_the_profile_only_witness :
  let idle := ready alice_row in
  let busy := {| profile := Some alice_row; isLoading := false; isSaving := true;
                 error := Some msg_taken; successMessage := None |} in
  effects_of (run (updateProfile t0 accept_upsert) busy)
    = [PreventDefault; Upsert (upsert_record alice_row t0); RouterRefresh] /\
  error (state_of (run (updateProfile t0 accept_upsert) busy)) = None.
Proof.
  intros idle busy.
  destruct (save_depends_on_the_profile_only idle busy t0 accept_upsert eq_refl)
    as (Heff & Hrest).
  destruct Hrest as (He & _); [vm_compute; discriminate|].
  split; [rewrite <- Heff; reflexivity | rewrite <- He; reflexivity].
Defined.
